(** * status/types.py: event descriptors and the typed parameter store

    A shallow embedding of [EStruct.__repr__] and of the [Parameters] class
    (classification of values by [identify_object_typeform], and the store
    operations built on it), followed by the properties of the specification
    that concern them.

    Modelling decisions.
    - Python values are the inductive [pyobj]: one constructor per built-in
      type the classifier can tell apart.  The [cls] argument of a
      constructor is [None] for an instance of the built-in type itself and
      [Some name] for an instance of [class name(builtin): pass].
    - A call either returns or raises: [pyresult].  Methods that mutate
      [self._storage] return the outcome together with the storage as the
      call leaves it, so that the state after a raised exception is part of
      the model.
    - [self._storage] is a [dict] with string keys; it is a [gmap].  The
      iteration order of the dict is not modelled.
    - Values are immutable data: iterating a value does not consume it.
      Generators and other one-shot iterators are outside the model. *)

From Stdlib Require Import ZArith List Ascii String DecimalString.
From Stdlib.Strings Require Import Byte.
From stdpp Require Import base option list strings gmap fin_maps.

Local Open Scope string_scope.

(** ** Exceptions and outcomes *)

Inductive exn :=
| StopIteration
| ValueError (msg : string)
| TypeError (msg : string)
| KeyError (key : string)
| AssertionError
| RecursionError.

Inductive pyresult (A : Type) :=
| Return (a : A)
| Raise (e : exn).

Arguments Return {A} a.
Arguments Raise {A} e.

Definition raises {A} (r : pyresult A) : Prop :=
  match r with Raise _ => True | Return _ => False end.

(** ** Types and values *)

(** The built-in classes the code refers to, directly or through the
    values it is handed. *)
Inductive builtin :=
| Tbool | Tint | Tfloat | Tstr | Tbytes | TNoneType | Tdict
| Tlist | Ttuple | Tset | Tfrozenset | Tobject.

(** [type(obj)]: a built-in class, or a user class deriving from one. *)
Inductive pytype :=
| Builtin (b : builtin)
| UserClass (name : string) (base : builtin).

#[warnings="-register-all"]
Inductive pyobj :=
| PyNone
| PyBool (b : bool)
| PyInt (cls : option string) (n : Z)
| PyFloat (cls : option string) (bits : Z)
| PyStr (cls : option string) (s : string)
| PyBytes (cls : option string) (b : list byte)
| PyDict (cls : option string) (items : list (pyobj * pyobj))
| PyList (cls : option string) (items : list pyobj)
| PyTuple (cls : option string) (items : list pyobj)
| PySet (cls : option string) (items : list pyobj)
| PyFrozenset (cls : option string) (items : list pyobj)
| PyObject (cls : option string).

Definition class_of (cls : option string) (b : builtin) : pytype :=
  match cls with
  | None => Builtin b
  | Some name => UserClass name b
  end.

(** [type(obj)] *)
Definition py_type (obj : pyobj) : pytype :=
  match obj with
  | PyNone => Builtin TNoneType
  | PyBool _ => Builtin Tbool
  | PyInt c _ => class_of c Tint
  | PyFloat c _ => class_of c Tfloat
  | PyStr c _ => class_of c Tstr
  | PyBytes c _ => class_of c Tbytes
  | PyDict c _ => class_of c Tdict
  | PyList c _ => class_of c Tlist
  | PyTuple c _ => class_of c Ttuple
  | PySet c _ => class_of c Tset
  | PyFrozenset c _ => class_of c Tfrozenset
  | PyObject c => class_of c Tobject
  end.

Global Instance exn_eq_dec : EqDecision exn.
Proof. solve_decision. Defined.
Global Instance builtin_eq_dec : EqDecision builtin.
Proof. solve_decision. Defined.
Global Instance pytype_eq_dec : EqDecision pytype.
Proof. solve_decision. Defined.
Global Instance byte_eq_dec' : EqDecision byte := Byte.byte_eq_dec.

(** Structural equality of values is decidable.  The recursion goes
    through the element lists of the containers. *)
Fixpoint pyobj_eq_dec (x y : pyobj) {struct x} : {x = y} + {x <> y}.
Proof.
  pose proof (@List.list_eq_dec _ pyobj_eq_dec) as Hlist.
  assert (Hpair : forall p q : pyobj * pyobj, {p = q} + {p <> q})
    by (decide equality; apply pyobj_eq_dec).
  pose proof (@List.list_eq_dec _ Hpair) as Hitems.
  decide equality;
    solve [ assumption | apply (decide _) | apply Z.eq_dec | apply String.string_dec ].
Defined.
Global Instance pyobj_eq_dec' : EqDecision pyobj := pyobj_eq_dec.

(** [issubclass] between built-in classes: [bool] derives from [int], and
    every class from [object]. *)
Definition builtin_subclass (b T : builtin) : bool :=
  bool_decide (b = T) || bool_decide (T = Tobject)
  || (bool_decide (b = Tbool) && bool_decide (T = Tint)).

(** [isinstance(obj, T)] for a built-in class [T]. *)
Definition isinstance (obj : pyobj) (T : builtin) : bool :=
  match py_type obj with
  | Builtin b => builtin_subclass b T
  | UserClass _ base => builtin_subclass base T
  end.

(** [iter(obj)]: the elements the iterator will produce, in order, or
    [TypeError] for an object that is not iterable. *)
Definition py_iter (obj : pyobj) : pyresult (list pyobj) :=
  match obj with
  | PyStr _ s =>
      Return (map (fun c => PyStr None (String c EmptyString)) (list_ascii_of_string s))
  | PyBytes _ b => Return (map (fun x => PyInt None (Z.of_N (Byte.to_N x))) b)
  | PyDict _ items => Return (map fst items)
  | PyList _ items | PyTuple _ items | PySet _ items | PyFrozenset _ items =>
      Return items
  | PyNone | PyBool _ | PyInt _ _ | PyFloat _ _ | PyObject _ =>
      Raise (TypeError "object is not iterable")
  end.

(** [next(i)] on a fresh iterator. *)
Definition py_next (i : list pyobj) : pyresult pyobj :=
  match i with
  | [] => Raise StopIteration
  | first :: _ => Return first
  end.

(** ** Generators *)

(** One run of a generator to its end: the objects it yields, then
    either exhaustion or the exception that escapes its body. *)
Inductive gen (A : Type) :=
| Yield (x : A) (rest : gen A)
| Stop
| Throw (e : exn).

Arguments Yield {A} x rest.
Arguments Stop {A}.
Arguments Throw {A} e.

(** What the consumer has received when the run ends. *)
Fixpoint yielded {A} (g : gen A) : list A :=
  match g with
  | Yield x rest => x :: yielded rest
  | Stop | Throw _ => []
  end.

(** [list(g)]: every object, unless an exception ends the run. *)
Fixpoint consume {A} (g : gen A) : pyresult (list A) :=
  match g with
  | Yield x rest =>
      match consume rest with
      | Raise e => Raise e
      | Return l => Return (x :: l)
      end
  | Stop => Return []
  | Throw e => Raise e
  end.

(** ** Parameters: classification *)

Module Parameters.

(** A typeform is the pair [(form, type)] of strings. *)
Abbreviation typeform := (string * string)%type (only parsing).

(** [_python_builtins], in the order the dict literal lists its keys. *)
Definition _python_builtins : list (builtin * string) :=
  [ (Tbool, "boolean");
    (Tint, "integer");
    (Tfloat, "rational");
    (Tstr, "string");
    (Tbytes, "octets");
    (TNoneType, "void");
    (Tdict, "parameters") ].

(** [Class._python_builtins[t]] when [t in Class._python_builtins]. *)
Fixpoint builtins_get (table : list (builtin * string)) (t : pytype) : option string :=
  match table with
  | [] => None
  | (T, stype) :: rest =>
      if decide (Builtin T = t) then Some stype else builtins_get rest t
  end.

(** The closing [for Type, stype in ...items()] loop: the first entry
    whose class [obj] is an instance of.  When the loop ends without a
    match the function ends without a [return] statement: the result is
    [None]. *)
Fixpoint subclass_scan (table : list (builtin * string)) (obj : pyobj) : option typeform :=
  match table with
  | [] => None
  | (T, stype) :: rest =>
      if isinstance obj T then Some ("value", stype) else subclass_scan rest obj
  end.

(** One activation of [identify_object_typeform], with the recursive call
    abstracted as [self].  The result is the returned object, [None]
    standing for Python's [None].  The [try] statement is the match on
    [attempt]: [except StopIteration], [except Exception] and [else], in
    that order.  The [assert] is taken as executed (no [-O]). *)
Definition identify_body (self : pyobj -> pyresult (option typeform)) (obj : pyobj)
  : pyresult (option typeform) :=
  match builtins_get _python_builtins (py_type obj) with
  | Some stype => Return (Some ("value", stype))
  | None =>
      let attempt :=
        match py_iter obj with
        | Raise e => Raise e
        | Return i => py_next i
        end in
      match attempt with
      | Raise StopIteration =>
          Raise (ValueError "empty iterator cannot be used to identify parameter type")
      | Raise _ => Return (subclass_scan _python_builtins obj)
      | Return first =>
          match self first with
          | Raise e => Raise e
          | Return None => Raise (TypeError "'NoneType' object is not subscriptable")
          | Return (Some tf) =>
              if bool_decide (tf.1 = "value") || bool_decide (tf.1 = "representation")
              then
                if isinstance obj Tset
                then Return (Some ("v-set", tf.2))
                else Return (Some ("v-sequence", tf.2))
              else Raise AssertionError
          end
      end
  end.

(** The recursion follows first elements; [first_depth] bounds it. *)
Fixpoint first_depth (obj : pyobj) : nat :=
  match obj with
  | PyDict _ ((k, _) :: _) => S (first_depth k)
  | PyList _ (x :: _) | PyTuple _ (x :: _) | PySet _ (x :: _)
  | PyFrozenset _ (x :: _) => S (first_depth x)
  | PyStr (Some _) _ | PyBytes (Some _) _ => 1
  | _ => 0
  end.

(** [identify_body] iterated at most [fuel] activations deep. *)
Fixpoint identify_fuel (fuel : nat) (obj : pyobj) : pyresult (option typeform) :=
  match fuel with
  | O => Raise RecursionError
  | S fuel' => identify_body (identify_fuel fuel') obj
  end.

(** The source function.  The budget covers the whole recursion:
    [identify_unfold] below is the recursive equation of the source, and
    [identify_no_recursion_error] shows the budget is never hit. *)
Definition identify_object_typeform (obj : pyobj) : pyresult (option typeform) :=
  identify_fuel (S (first_depth obj)) obj.

(** ** Parameters: the store *)

(** What [_storage] holds under a key: the pair [(tf, value)].  The
    typeform is whatever the classifier returned, [None] included. *)
Abbreviation entry := (option typeform * pyobj)%type (only parsing).

(** An instance has the single slot [_storage]. *)
Record t := __init__ { _storage : gmap string entry }.

(** [operand._storage == self._storage].  Two dicts are equal when they
    have the same keys with equal values, in whatever order they were
    filled; values are compared as data of the model. *)
Definition __eq__ (self operand : t) : bool :=
  bool_decide (_storage operand = _storage self).

Definition get_parameter (key : string) (self : t) : pyresult pyobj :=
  match _storage self !! key with
  | Some e => Return e.2
  | None => Raise (KeyError key)
  end.

(** The body calls [get_parameter] and has no [return] statement. *)
Definition __getitem__ (key : string) (self : t) : pyresult pyobj :=
  match get_parameter key self with
  | Raise e => Raise e
  | Return _ => Return PyNone
  end.

Definition set_parameter (key : string) (value : pyobj) (self : t)
  : pyresult (option entry) * t :=
  match identify_object_typeform value with
  | Raise e => (Raise e, self)
  | Return tf =>
      let last := _storage self !! key in
      let popped := delete key (_storage self) in
      (Return last, __init__ (<[key := (tf, value)]> popped))
  end.

Definition __setitem__ (key : string) (value : pyobj) (self : t) : pyresult unit * t :=
  match set_parameter key value self with
  | (Raise e, self') => (Raise e, self')
  | (Return _, self') => (Return tt, self')
  end.

Fixpoint update (pairiter : list (string * pyobj)) (self : t) : pyresult unit * t :=
  match pairiter with
  | [] => (Return tt, self)
  | (k, v) :: rest =>
      match identify_object_typeform v with
      | Raise e => (Raise e, self)
      | Return tf => update rest (__init__ (<[k := (tf, v)]> (_storage self)))
      end
  end.

Definition set_excluded (key : string) (value : pyobj) (self : t) : pyresult unit * t :=
  (Return tt, __init__ (<[key := (Some ("value", "excluded"), value)]> (_storage self))).

Definition set_reference (key target : string) (self : t) : pyresult string * t :=
  match _storage self !! target with
  | None => (Raise (KeyError target), self)
  | Some (None, _) => (Raise (TypeError "'NoneType' object is not subscriptable"), self)
  | Some (Some tf, _) =>
      let t := tf.2 in
      (Return t,
       __init__ (<[key := (Some ("reference", t), PyStr None target)]> (_storage self)))
  end.

Definition set_identifier (key value : string) (self : t) : pyresult unit * t :=
  (Return tt,
   __init__ (<[key := (Some ("value", "identifier"), PyStr None value)]> (_storage self))).

Definition set_system_file (key : string) (value : pyobj) (self : t) : pyresult unit * t :=
  (Return tt,
   __init__ (<[key := (Some ("value", "system-file-path"), value)]> (_storage self))).

Definition set_rvalue (type key value : string) (self : t) : pyresult (option entry) * t :=
  let last := _storage self !! key in
  let popped := delete key (_storage self) in
  (Return last,
   __init__ (<[key := (Some ("representation", type), PyStr None value)]> popped)).

(** [Collection(strings)] with the default [Collection=set].  The order
    in which the new set will be iterated is not fixed by the source; the
    model lists each string once, where it first occurs. *)
Definition set_rset (type key : string) (strings : list string) (self : t)
  : pyresult unit * t :=
  (Return tt,
   __init__ (<[key := (Some ("r-set", type), PySet None (map (PyStr None) (remove_dups strings)))]>
               (_storage self))).

(** [Collection(strings)] with the default [Collection=list]. *)
Definition set_rsequence (type key : string) (strings : list string) (self : t)
  : pyresult unit * t :=
  (Return tt,
   __init__ (<[key := (Some ("r-sequence", type), PyList None (map (PyStr None) strings))]>
               (_storage self))).

Definition from_nothing_v1 : t := __init__ ∅.

(** The dict comprehension [{k:(tf(v),v) for k,v in iterpairs}], filling
    [acc] in the order the pairs are produced. *)
Fixpoint typeform_dict (iterpairs : list (string * pyobj)) (acc : gmap string entry)
  : pyresult (gmap string entry) :=
  match iterpairs with
  | [] => Return acc
  | (k, v) :: rest =>
      match identify_object_typeform v with
      | Raise e => Raise e
      | Return tf => typeform_dict rest (<[k := (tf, v)]> acc)
      end
  end.

Definition from_pairs_v1 (iterpairs : list (string * pyobj)) : pyresult t :=
  match typeform_dict iterpairs ∅ with
  | Raise e => Raise e
  | Return storage => Return (__init__ storage)
  end.

(** [self._storage.items()], in the order the model lists a mapping.
    The store is not written while a generator over it runs. *)
Definition storage_items (self : t) : list (string * entry) :=
  map_to_list (_storage self).

(** A [Specification]: form, type, key, value. *)
Abbreviation specification := (string * string * string * pyobj)%type (only parsing).

(** The loop of [iterspecs] over the given items: [t[0]] raises for an
    entry whose typeform is [None]. *)
Fixpoint iterspecs_items (its : list (string * entry)) : gen specification :=
  match its with
  | [] => Stop
  | (k, (None, _)) :: _ => Throw (TypeError "'NoneType' object is not subscriptable")
  | (k, (Some t, v)) :: rest => Yield (t.1, t.2, k, v) (iterspecs_items rest)
  end.

Definition iterspecs (self : t) : gen specification :=
  iterspecs_items (storage_items self).

(** [not bool(self._storage)]: a dict is true when it has an item. *)
Definition empty (self : t) : bool :=
  negb (negb (Nat.eqb (size (_storage self)) 0)).

(** [self._storage.keys()], as the keys are at the time of the call. *)
Definition list_parameters (self : t) : list string :=
  (storage_items self).*1.

(** The generator expression [(s[x][-1] for x in keys)]. *)
Fixpoint select (keys : list string) (self : t) : gen pyobj :=
  match keys with
  | [] => Stop
  | x :: rest =>
      match _storage self !! x with
      | None => Throw (KeyError x)
      | Some e => Yield e.2 (select rest self)
      end
  end.

(** The dict comprehension [{k:((form,typ),v) for form,typ,k,v in iterspec}]. *)
Fixpoint specification_dict (iterspec : list specification) (acc : gmap string entry)
  : gmap string entry :=
  match iterspec with
  | [] => acc
  | (form, typ, k, v) :: rest =>
      specification_dict rest (<[k := (Some (form, typ), v)]> acc)
  end.

Definition from_specification_v1 (iterspec : list specification) : t :=
  __init__ (specification_dict iterspec ∅).

(** The calls that write to the storage, and the instance each leaves
    behind whether it returns or raises. *)
Inductive call :=
| Set_item (key : string) (value : pyobj)
| Set_parameter (key : string) (value : pyobj)
| Update (pairiter : list (string * pyobj))
| Set_excluded (key : string) (value : pyobj)
| Set_reference (key target : string)
| Set_identifier (key value : string)
| Set_system_file (key : string) (value : pyobj)
| Set_rvalue (type key value : string)
| Set_rset (type key : string) (strings : list string)
| Set_rsequence (type key : string) (strings : list string).

Definition run (c : call) (self : t) : t :=
  match c with
  | Set_item key value => (__setitem__ key value self).2
  | Set_parameter key value => (set_parameter key value self).2
  | Update pairiter => (update pairiter self).2
  | Set_excluded key value => (set_excluded key value self).2
  | Set_reference key target => (set_reference key target self).2
  | Set_identifier key value => (set_identifier key value self).2
  | Set_system_file key value => (set_system_file key value self).2
  | Set_rvalue type key value => (set_rvalue type key value self).2
  | Set_rset type key strings => (set_rset type key strings self).2
  | Set_rsequence type key strings => (set_rsequence type key strings self).2
  end.

(** The keys a call is asked to write. *)
Definition written (c : call) : list string :=
  match c with
  | Set_item key _ | Set_parameter key _ | Set_excluded key _
  | Set_reference key _ | Set_identifier key _ | Set_system_file key _
  | Set_rvalue _ key _ | Set_rset _ key _ | Set_rsequence _ key _ => [key]
  | Update pairiter => map fst pairiter
  end.

End Parameters.

(** ** EStruct *)

(** [str(n)] and [%d] for an [int]: the decimal numeral. *)
Definition py_str_int (n : Z) : string := NilZero.string_of_int (Z.to_int n).

Definition hex_digit (n : N) : ascii :=
  if (n <? 10)%N then ascii_of_N (48 + n) else ascii_of_N (87 + n).

Definition backslash : ascii := "092".

(** [repr] of one character of a [str], inside the quotes [quote].
    Characters are code points below 256. *)
Definition repr_char (quote c : ascii) : string :=
  let n := N_of_ascii c in
  if bool_decide (c = quote) || bool_decide (c = backslash)
  then String backslash (String c "")
  else if (n =? 9)%N then String backslash "t"
  else if (n =? 10)%N then String backslash "n"
  else if (n =? 13)%N then String backslash "r"
  else if (n <? 32)%N || (n =? 127)%N || ((127 <? n) && (n <=? 160))%N || (n =? 173)%N
  then String backslash
         (String "x" (String (hex_digit (n / 16)) (String (hex_digit (n mod 16)) "")))
  else String c "".

Fixpoint has_char (c : ascii) (s : string) : bool :=
  match s with
  | "" => false
  | String c' rest => bool_decide (c = c') || has_char c rest
  end.

Fixpoint repr_chars (quote : ascii) (s : string) : string :=
  match s with
  | "" => ""
  | String c rest => repr_char quote c ++ repr_chars quote rest
  end.

(** [repr(s)] for a [str]: double quotes only when the text holds a
    single quote and no double quote. *)
Definition py_repr_str (s : string) : string :=
  let quote := if has_char "'" s && negb (has_char "034" s) then "034"%char else "'"%char in
  String quote (repr_chars quote s ++ String quote "").

(** The arguments [%] formatting is applied to here. *)
Inductive fmtarg :=
| ArgStr (s : string)
| ArgInt (n : Z).

Definition convert (spec : ascii) (a : fmtarg) : pyresult string :=
  if bool_decide (spec = "s"%char) then
    match a with ArgStr s => Return s | ArgInt n => Return (py_str_int n) end
  else if bool_decide (spec = "r"%char) then
    match a with ArgStr s => Return (py_repr_str s) | ArgInt n => Return (py_str_int n) end
  else if bool_decide (spec = "d"%char) then
    match a with
    | ArgInt n => Return (py_str_int n)
    | ArgStr _ => Raise (TypeError "%d format: a real number is required, not str")
    end
  else Raise (ValueError "unsupported format character").

(** [fmt % args] for a tuple of arguments. *)
Fixpoint py_format (fmt : string) (args : list fmtarg) : pyresult string :=
  match fmt with
  | "" =>
      match args with
      | [] => Return ""
      | _ :: _ => Raise (TypeError "not all arguments converted during string formatting")
      end
  | String "%" (String spec rest) =>
      match args with
      | [] => Raise (TypeError "not enough arguments for format string")
      | a :: args' =>
          match convert spec a with
          | Raise e => Raise e
          | Return text =>
              match py_format rest args' with
              | Raise e => Raise e
              | Return tail => Return (text ++ tail)
              end
          end
      end
  | String c rest =>
      match py_format rest args with
      | Raise e => Raise e
      | Return tail => Return (String c tail)
      end
  end.

Module EStruct.

(** The five fields, in the order the tuple stores them. *)
Record t := from_arguments_v1 {
  protocol : string;
  identifier : string;
  code : Z;
  symbol : string;
  abstract : string
}.

Definition from_fields_v1 (protocol : string) : t :=
  from_arguments_v1 protocol "" 0 "Unspecified" "event snapshot created without abstract".

Definition __repr__ (self : t) : pyresult string :=
  if bool_decide (py_str_int (code self) <> identifier self)
  then py_format "<[%s#%s:%d] %s: %r>"
         [ArgStr (protocol self); ArgStr (identifier self); ArgInt (code self);
          ArgStr (symbol self); ArgStr (abstract self)]
  else py_format "<[%s#%s] %s: %r>"
         [ArgStr (protocol self); ArgStr (identifier self);
          ArgStr (symbol self); ArgStr (abstract self)].

(** The instance as the tuple it is. *)
Definition fields (self : t) : list fmtarg :=
  [ArgStr (protocol self); ArgStr (identifier self); ArgInt (code self);
   ArgStr (symbol self); ArgStr (abstract self)].

(** [tuple[i]]: a negative index counts from the end, [None] stands for
    [IndexError]. *)
Definition item {A} (self : list A) (i : Z) : option A :=
  if (0 <=? i)%Z then self !! Z.to_nat i
  else if (0 <=? Z.of_nat (length self) + i)%Z
       then self !! Z.to_nat (Z.of_nat (length self) + i)
       else None.

(** [Class(fields[:5])]: the tuple of the first five objects, or of all
    of them when there are fewer. *)
Definition from_tuple_v1 (fields : list fmtarg) : list fmtarg :=
  take 5 fields.

(** The properties, on an instance of any length. *)
Definition protocol_of (self : list fmtarg) : option fmtarg := item self 0.
Definition identifier_of (self : list fmtarg) : option fmtarg := item self 1.
Definition code_of (self : list fmtarg) : option fmtarg := item self 2.
Definition symbol_of (self : list fmtarg) : option fmtarg := item self 3.
Definition abstract_of (self : list fmtarg) : option fmtarg := item self (-1).

End EStruct.

(** ** Trace *)

Module Trace.

(** The one-element tuple [(events,)]. *)
Record t := from_events_v1 { t_route : list (EStruct.t * Parameters.t) }.

Definition from_nothing_v1 : t := from_events_v1 [].

End Trace.

(** ** Failure, Message, Report *)

(** Each is the tuple [(event, parameters, context)].  A constructor is
    called with the context and the event as its two positional
    arguments and with the parameters as keyword arguments. *)

(** Binding the keyword arguments of such a call to [**parameters].  A
    name given twice, or a name that one of the [positional] parameters
    of the function already has, is a [TypeError] of the call, raised
    before the body runs.  The text of the message depends on the
    interpreter; only the names are kept. *)
Definition bind_keywords (positional : list string) (keywords : list (string * pyobj))
  : pyresult (list (string * pyobj)) :=
  if bool_decide (NoDup keywords.*1)
  then
    match filter (fun name => name ∈ positional) keywords.*1 with
    | [] => Return keywords
    | name :: _ => Raise (TypeError ("got multiple values for argument " ++ name))
    end
  else Raise (TypeError "got multiple values for keyword argument").

Module Failure.

Record t := Class {
  f_error : EStruct.t;
  f_parameters : Parameters.t;
  f_context : Trace.t
}.

(** The parameters of [from_arguments_v1] that the call fills by position. *)
Definition positional : list string := ["Class"; "errcontext"; "error"].

Definition from_arguments_v1 (errcontext : option Trace.t) (error : EStruct.t)
    (keywords : list (string * pyobj)) : pyresult t :=
  match bind_keywords positional keywords with
  | Raise e => Raise e
  | Return parameters =>
      let errcontext :=
        match errcontext with
        | None => Trace.from_nothing_v1
        | Some context => context
        end in
      match Parameters.from_pairs_v1 parameters with
      | Raise e => Raise e
      | Return store => Return (Class error store errcontext)
      end
  end.

End Failure.

Module Message.

Record t := Class {
  msg_event : EStruct.t;
  msg_parameters : Parameters.t;
  msg_context : Trace.t
}.

(** The parameters of [from_arguments_v1] that the call fills by position. *)
Definition positional : list string := ["Class"; "msgctx"; "msgid"].

Definition from_arguments_v1 (msgctx : option Trace.t) (msgid : EStruct.t)
    (keywords : list (string * pyobj)) : pyresult t :=
  match bind_keywords positional keywords with
  | Raise e => Raise e
  | Return parameters =>
      let msgctx :=
        match msgctx with
        | None => Trace.from_nothing_v1
        | Some context => context
        end in
      match Parameters.from_pairs_v1 parameters with
      | Raise e => Raise e
      | Return store => Return (Class msgid store msgctx)
      end
  end.

End Message.

Module Report.

Record t := Class {
  r_event : EStruct.t;
  r_parameters : Parameters.t;
  r_context : Trace.t
}.

(** The parameters of [from_arguments_v1] that the call fills by position. *)
Definition positional : list string := ["Class"; "re_ctx"; "report_id"].

Definition from_arguments_v1 (re_ctx : option Trace.t) (report_id : EStruct.t)
    (keywords : list (string * pyobj)) : pyresult t :=
  match bind_keywords positional keywords with
  | Raise e => Raise e
  | Return parameters =>
      let re_ctx :=
        match re_ctx with
        | None => Trace.from_nothing_v1
        | Some context => context
        end in
      match Parameters.from_pairs_v1 parameters with
      | Raise e => Raise e
      | Return store => Return (Class report_id store re_ctx)
      end
  end.

End Report.

(** * Vocabulary of the statements *)

Import Parameters.

(** The type is one of the keys of [_python_builtins]: the fast path. *)
Definition scalar_kind (obj : pyobj) : option string :=
  builtins_get _python_builtins (py_type obj).

(** The items of [_storage] filed under [key]. *)
Definition entries (key : string) (self : t) : list (string * entry) :=
  filter (fun kv => kv.1 = key) (map_to_list (_storage self)).

(** A value of one of the fixed scalar kinds. *)
Definition supported_scalar (value : pyobj) : Prop :=
  is_Some (scalar_kind value).

(** A non-empty collection whose elements are scalars of one kind. *)
Definition scalar_collection (value : pyobj) : Prop :=
  scalar_kind value = None /\
  exists first rest stype,
    py_iter value = Return (first :: rest) /\
    Forall (fun x => scalar_kind x = Some stype) (first :: rest).

(** The values the round trip is stated for. *)
Definition supported (value : pyobj) : Prop :=
  supported_scalar value \/ scalar_collection value.

(** The exception raised for an iterable that produces nothing. *)
Definition empty_iterator_error : exn :=
  ValueError "empty iterator cannot be used to identify parameter type".

(** Example data. *)
Definition example_pairs : list (string * pyobj) :=
  [ ("count", PyInt None 3);
    ("name", PyStr None "widget");
    ("tags", PySet None [PyStr None "a"; PyStr None "b"]) ].

Definition pairs_ab : list (string * pyobj) :=
  [ ("a", PyInt None 1); ("b", PyStr None "x") ].

Definition pairs_ba : list (string * pyobj) :=
  [ ("b", PyStr None "x"); ("a", PyInt None 1) ].

Definition store_ab : t :=
  __init__ (<["b" := (Some ("value", "string"), PyStr None "x")]>
              (<["a" := (Some ("value", "integer"), PyInt None 1)]> ∅)).

(** Closes [k <> key] goals from the fact that [key] is not written. *)
Ltac other_key :=
  let Heq := fresh in
  intros Heq; simpl in *; subst; first [congruence | set_solver].

(** Every entry carries a typeform pair. *)
Definition tagged (self : t) : Prop :=
  forall key e, _storage self !! key = Some e -> is_Some e.1.

(** The classifier does not answer [None] for the value: it returns a
    typeform pair or raises. *)
Definition classifies (value : pyobj) : Prop :=
  identify_object_typeform value <> Return None.

(** A call whose values, where it classifies any, are of that sort. *)
Definition safe (c : call) : Prop :=
  match c with
  | Set_item _ value | Set_parameter _ value => classifies value
  | Update pairiter => Forall (fun kv => classifies kv.2) pairiter
  | _ => True
  end.

(** The classifier returns for every value of the pairs. *)
Definition classifiable (pairs : list (string * pyobj)) : Prop :=
  Forall (fun kv => exists tf, identify_object_typeform kv.2 = Return tf) pairs.

(** Successive [set_parameter] calls, whatever each one's outcome. *)
Definition set_each (pairs : list (string * pyobj)) (self : t) : t :=
  foldl (fun s kv => (set_parameter kv.1 kv.2 s).2) self pairs.

(** * Properties *)

(** ** The classifier is a total function *)

Lemma first_depth_next obj i first :
  scalar_kind obj = None ->
  py_iter obj = Return i ->
  py_next i = Return first ->
  first_depth first < first_depth obj.
Proof.
  unfold scalar_kind.
  destruct obj as [| ? | c ? | c ? | c s | c b | c items | c items | c items
                  | c items | c items | c];
    try destruct c; simpl; try discriminate; intros _ Hi Hn;
    injection Hi as <-;
    try destruct s; try destruct b; try destruct items as [|[? ?] ?] || destruct items;
    simpl in Hn; try discriminate; injection Hn as <-; simpl; lia.
Qed.

(** [identify_body] consults [self] on the first element only. *)
Lemma identify_body_ext self1 self2 obj :
  (forall i first,
     scalar_kind obj = None -> py_iter obj = Return i -> py_next i = Return first ->
     self1 first = self2 first) ->
  identify_body self1 obj = identify_body self2 obj.
Proof.
  intros Hself. unfold identify_body. fold (scalar_kind obj).
  destruct (scalar_kind obj) eqn:Hk; [reflexivity|].
  destruct (py_iter obj) as [i|e] eqn:Hi; [|reflexivity].
  destruct (py_next i) as [first|e] eqn:Hn; [|reflexivity].
  rewrite (Hself i first); auto.
Qed.

Lemma identify_fuel_stable n :
  forall m obj,
    first_depth obj < n -> first_depth obj < m ->
    identify_fuel n obj = identify_fuel m obj.
Proof.
  induction n as [|n IH]; intros m obj Hn Hm; [lia|].
  destruct m as [|m]; [lia|]. simpl.
  apply identify_body_ext. intros i first Hk Hi Hnext.
  pose proof (first_depth_next obj i first Hk Hi Hnext).
  apply IH; lia.
Qed.

(** The defining equation of the source function. *)
Lemma identify_unfold obj :
  identify_object_typeform obj = identify_body identify_object_typeform obj.
Proof.
  unfold identify_object_typeform at 1. simpl.
  apply identify_body_ext. intros i first Hk Hi Hnext.
  pose proof (first_depth_next obj i first Hk Hi Hnext).
  unfold identify_object_typeform. apply identify_fuel_stable; lia.
Qed.

(** The depth budget of the model is never the reason for an answer. *)
Lemma identify_fuel_sufficient n :
  forall obj, first_depth obj < n -> identify_fuel n obj <> Raise RecursionError.
Proof.
  induction n as [|n IH]; intros obj Hn; [lia|].
  simpl. unfold identify_body. fold (scalar_kind obj).
  destruct (scalar_kind obj) eqn:Hk; [discriminate|].
  destruct (py_iter obj) as [i|e] eqn:Hi; [|destruct e; discriminate].
  destruct (py_next i) as [first|e] eqn:Hnext.
  - pose proof (first_depth_next obj i first Hk Hi Hnext) as Hlt.
    assert (Hfirst : identify_fuel n first <> Raise RecursionError)
      by (apply IH; lia).
    destruct (identify_fuel n first) as [[tf|]|e]; try discriminate.
    + destruct (_ || _); [|discriminate].
      destruct (isinstance obj Tset); discriminate.
    + congruence.
  - destruct e; discriminate.
Qed.

Lemma identify_no_recursion_error obj :
  identify_object_typeform obj <> Raise RecursionError.
Proof. apply identify_fuel_sufficient. lia. Qed.

(** ** Facts about classification *)

Lemma identify_scalar obj stype :
  scalar_kind obj = Some stype ->
  identify_object_typeform obj = Return (Some ("value", stype)).
Proof.
  intros Hk. rewrite identify_unfold. unfold identify_body.
  fold (scalar_kind obj). rewrite Hk. reflexivity.
Qed.

Lemma identify_first obj first rest :
  scalar_kind obj = None ->
  py_iter obj = Return (first :: rest) ->
  identify_object_typeform obj =
    match identify_object_typeform first with
    | Raise e => Raise e
    | Return None => Raise (TypeError "'NoneType' object is not subscriptable")
    | Return (Some tf) =>
        if bool_decide (tf.1 = "value") || bool_decide (tf.1 = "representation")
        then
          if isinstance obj Tset
          then Return (Some ("v-set", tf.2))
          else Return (Some ("v-sequence", tf.2))
        else Raise AssertionError
    end.
Proof.
  intros Hk Hi. rewrite identify_unfold at 1. unfold identify_body.
  fold (scalar_kind obj). rewrite Hk, Hi. reflexivity.
Qed.

Lemma identify_empty obj :
  scalar_kind obj = None ->
  py_iter obj = Return [] ->
  identify_object_typeform obj =
    Raise (ValueError "empty iterator cannot be used to identify parameter type").
Proof.
  intros Hk Hi. rewrite identify_unfold. unfold identify_body.
  fold (scalar_kind obj). rewrite Hk, Hi. reflexivity.
Qed.

Lemma py_iter_raises obj e : py_iter obj = Raise e -> e <> StopIteration.
Proof. destruct obj; simpl; intros H; inversion H; discriminate. Qed.

Lemma identify_not_iterable obj e :
  scalar_kind obj = None ->
  py_iter obj = Raise e ->
  identify_object_typeform obj = Return (subclass_scan _python_builtins obj).
Proof.
  intros Hk Hi. rewrite identify_unfold. unfold identify_body.
  fold (scalar_kind obj). rewrite Hk, Hi.
  pose proof (py_iter_raises obj e Hi). destruct e; congruence.
Qed.

(** The classifier never answers with the form ['representation'], and a
    collection never has the form ['value']. *)
Lemma identify_collection_form obj first rest tf :
  scalar_kind obj = None ->
  py_iter obj = Return (first :: rest) ->
  identify_object_typeform obj = Return (Some tf) ->
  tf.1 = "v-set" \/ tf.1 = "v-sequence".
Proof.
  intros Hk Hi. rewrite (identify_first obj first rest Hk Hi).
  destruct (identify_object_typeform first) as [[tf'|]|]; try discriminate.
  destruct (_ || _); [|discriminate].
  destruct (isinstance obj Tset); intros H; injection H as <-; auto.
Qed.

(** ** Facts about the storage *)

Lemma filter_other_keys (l : list (string * entry)) key :
  key ∉ l.*1 -> filter (fun kv => kv.1 = key) l = [].
Proof.
  induction l as [|[k e] l IH]; intros Hnot; [reflexivity|].
  rewrite fmap_cons, not_elem_of_cons in Hnot. destruct Hnot as [Hne Hnot].
  rewrite filter_cons_False by (simpl; intros ->; apply Hne; reflexivity). auto.
Qed.

Lemma entries_lookup self key e :
  _storage self !! key = Some e -> entries key self = [(key, e)].
Proof.
  intros Hlook. unfold entries.
  assert (Hperm : map_to_list (_storage self)
                  ≡ₚ (key, e) :: map_to_list (delete key (_storage self))).
  { rewrite <- (insert_delete_id (_storage self) key e Hlook) at 1.
    apply map_to_list_insert, lookup_delete_eq. }
  apply Permutation_singleton_r. rewrite Hperm.
  rewrite filter_cons_True by reflexivity.
  rewrite filter_other_keys; [reflexivity|].
  intros Hin. apply list_elem_of_fmap in Hin as [[k e'] [-> Hin]].
  apply elem_of_map_to_list in Hin. simpl in Hin.
  rewrite lookup_delete_eq in Hin. discriminate.
Qed.

Lemma set_parameter_returns self key value tf :
  identify_object_typeform value = Return tf ->
  set_parameter key value self =
    (Return (_storage self !! key), __init__ (<[key := (tf, value)]> (_storage self))).
Proof.
  intros Hid. unfold set_parameter. rewrite Hid. simpl.
  rewrite insert_delete_eq. reflexivity.
Qed.

Lemma set_parameter_raises self key value e :
  identify_object_typeform value = Raise e ->
  set_parameter key value self = (Raise e, self).
Proof. intros Hid. unfold set_parameter. rewrite Hid. reflexivity. Qed.

(** A call leaves alone every key it is not asked to write. *)
Lemma update_other_keys pairiter :
  forall self key,
    key ∉ pairiter.*1 ->
    _storage (update pairiter self).2 !! key = _storage self !! key.
Proof.
  induction pairiter as [|[k v] rest IH]; intros self key Hnot; [reflexivity|].
  rewrite fmap_cons, not_elem_of_cons in Hnot. destruct Hnot as [Hne Hnot].
  simpl. destruct (identify_object_typeform v) as [tf|e]; [|reflexivity].
  rewrite IH by assumption. simpl. apply lookup_insert_ne. other_key.
Qed.

Lemma run_other_keys c self key :
  key ∉ written c -> _storage (run c self) !! key = _storage self !! key.
Proof.
  destruct c; simpl; intros Hnot.
  - unfold __setitem__, set_parameter.
    destruct (identify_object_typeform value); [|reflexivity]. simpl.
    rewrite insert_delete_eq. apply lookup_insert_ne. other_key.
  - unfold set_parameter.
    destruct (identify_object_typeform value); [|reflexivity]. simpl.
    rewrite insert_delete_eq. apply lookup_insert_ne. other_key.
  - apply update_other_keys, Hnot.
  - apply lookup_insert_ne. other_key.
  - unfold set_reference.
    destruct (_storage self !! target) as [[[tf|] v]|]; try reflexivity.
    simpl. apply lookup_insert_ne. other_key.
  - apply lookup_insert_ne. other_key.
  - apply lookup_insert_ne. other_key.
  - rewrite insert_delete_eq. apply lookup_insert_ne. other_key.
  - apply lookup_insert_ne. other_key.
  - apply lookup_insert_ne. other_key.
Qed.

Lemma calls_other_keys calls :
  forall self key,
    Forall (fun c => key ∉ written c) calls ->
    _storage (foldl (flip run) self calls) !! key = _storage self !! key.
Proof.
  induction calls as [|c calls IH]; intros self key Hall; [reflexivity|].
  inversion Hall as [|? ? Hc Hrest]; subst. simpl.
  rewrite IH by assumption. apply run_other_keys, Hc.
Qed.

(** ** Facts about the dict comprehension of [from_pairs_v1] *)

Lemma typeform_dict_returns iterpairs :
  forall acc storage,
    typeform_dict iterpairs acc = Return storage ->
    (forall key, key ∉ iterpairs.*1 -> storage !! key = acc !! key) /\
    (forall key, key ∈ iterpairs.*1 ->
       exists value tf,
         (key, value) ∈ iterpairs /\
         identify_object_typeform value = Return tf /\
         storage !! key = Some (tf, value)).
Proof.
  induction iterpairs as [|[k v] rest IH]; intros acc storage Hret; simpl in Hret.
  - injection Hret as <-. split; [reflexivity|].
    intros key Hin. apply elem_of_nil in Hin. contradiction.
  - destruct (identify_object_typeform v) as [tf|e] eqn:Hid; [|discriminate].
    destruct (IH _ _ Hret) as [Hout Hin]. split.
    + intros key Hnot. rewrite fmap_cons, not_elem_of_cons in Hnot.
      destruct Hnot as [Hne Hnot]. rewrite Hout by assumption.
      apply lookup_insert_ne. other_key.
    + intros key Hkey. destruct (decide (key ∈ rest.*1)) as [Hrest|Hrest].
      * destruct (Hin key Hrest) as (value & tf' & Hmem & Hid' & Hlook).
        exists value, tf'. split; [right; assumption|]. auto.
      * rewrite fmap_cons, elem_of_cons in Hkey.
        destruct Hkey as [->|Hkey]; [|contradiction]. simpl.
        exists v, tf. split; [left|]. split; [assumption|].
        rewrite Hout by assumption. apply lookup_insert_eq.
Qed.

Lemma typeform_dict_classified iterpairs :
  forall acc storage,
    typeform_dict iterpairs acc = Return storage ->
    Forall (fun kv => exists tf, identify_object_typeform kv.2 = Return tf) iterpairs.
Proof.
  induction iterpairs as [|[k v] rest IH]; intros acc storage Hret; [constructor|].
  simpl in Hret.
  destruct (identify_object_typeform v) as [tf|e] eqn:Hid; [|discriminate].
  constructor; [exists tf; assumption | eapply IH, Hret].
Qed.

Lemma typeform_dict_total iterpairs :
  forall acc,
    Forall (fun kv => exists tf, identify_object_typeform kv.2 = Return tf) iterpairs ->
    exists storage, typeform_dict iterpairs acc = Return storage.
Proof.
  induction iterpairs as [|[k v] rest IH]; intros acc Hall; simpl.
  - exists acc. reflexivity.
  - inversion Hall as [|? ? [tf Hid] Hrest]; subst. simpl in Hid.
    rewrite Hid. apply IH, Hrest.
Qed.

Lemma typeform_dict_raises iterpairs :
  forall acc key value,
    (key, value) ∈ iterpairs ->
    raises (identify_object_typeform value) ->
    raises (typeform_dict iterpairs acc).
Proof.
  induction iterpairs as [|[k v] rest IH]; intros acc key value Hin Hraise.
  - apply elem_of_nil in Hin. contradiction.
  - simpl. destruct (identify_object_typeform v) as [tf|e] eqn:Hid; [|exact I].
    apply elem_of_cons in Hin as [Heq|Hin].
    + injection Heq as -> ->. rewrite Hid in Hraise. contradiction.
    + eapply IH; eassumption.
Qed.

Lemma update_raises pairiter :
  forall self key value,
    (key, value) ∈ pairiter ->
    raises (identify_object_typeform value) ->
    raises (update pairiter self).1.
Proof.
  induction pairiter as [|[k v] rest IH]; intros self key value Hin Hraise.
  - apply elem_of_nil in Hin. contradiction.
  - simpl. destruct (identify_object_typeform v) as [tf|e] eqn:Hid; [|exact I].
    apply elem_of_cons in Hin as [Heq|Hin].
    + injection Heq as -> ->. rewrite Hid in Hraise. contradiction.
    + eapply IH; eassumption.
Qed.

(** ** Supported values *)

Lemma supported_classified value :
  supported value -> exists tf, identify_object_typeform value = Return (Some tf).
Proof.
  intros [[stype Hk]|(Hk & first & rest & stype & Hi & Hall)].
  - eexists. apply identify_scalar, Hk.
  - inversion Hall as [|? ? Hfirst _]; subst.
    rewrite (identify_first value first rest Hk Hi).
    rewrite (identify_scalar first stype Hfirst). simpl.
    destruct (isinstance value Tset); eexists; reflexivity.
Qed.

Lemma unique_values (iterpairs : list (string * pyobj)) key v v' :
  NoDup iterpairs.*1 -> (key, v) ∈ iterpairs -> (key, v') ∈ iterpairs -> v = v'.
Proof.
  induction iterpairs as [|[k x] rest IH]; intros Hnd Hv Hv'.
  - apply elem_of_nil in Hv. contradiction.
  - rewrite fmap_cons in Hnd. apply NoDup_cons in Hnd as [Hfresh Hnd].
    apply elem_of_cons in Hv as [Hv|Hv]; apply elem_of_cons in Hv' as [Hv'|Hv'].
    + congruence.
    + injection Hv as -> ->. exfalso. apply Hfresh.
      apply list_elem_of_fmap. exists (k, v'). auto.
    + injection Hv' as -> ->. exfalso. apply Hfresh.
      apply list_elem_of_fmap. exists (k, v). auto.
    + auto.
Qed.

(** ** Values the classifier has no answer for *)

Lemma subclass_scan_None table obj :
  (forall T stype, (T, stype) ∈ table -> isinstance obj T = false) ->
  subclass_scan table obj = None.
Proof.
  induction table as [|[T stype] rest IH]; intros Hnot; simpl.
  - reflexivity.
  - rewrite (Hnot T stype) by left. apply IH.
    intros T' stype' Hin. apply (Hnot T' stype'). right. exact Hin.
Qed.

Lemma identify_unclassifiable obj e :
  scalar_kind obj = None ->
  py_iter obj = Raise e ->
  (forall T stype, (T, stype) ∈ _python_builtins -> isinstance obj T = false) ->
  identify_object_typeform obj = Return None.
Proof.
  intros Hk Hi Hnot. rewrite (identify_not_iterable obj e Hk Hi).
  rewrite subclass_scan_None by assumption. reflexivity.
Qed.

Lemma set_parameter_unclassifiable self key obj e :
  scalar_kind obj = None ->
  py_iter obj = Raise e ->
  (forall T stype, (T, stype) ∈ _python_builtins -> isinstance obj T = false) ->
  set_parameter key obj self =
    (Return (_storage self !! key), __init__ (<[key := (None, obj)]> (_storage self))).
Proof.
  intros Hk Hi Hnot. apply set_parameter_returns.
  eapply identify_unclassifiable; eassumption.
Qed.

(** C1.  A plain [object()] is of no scalar kind, is not iterable and is
    an instance of no scalar kind; the specification asks that setting it
    raises.  The classifier falls off its last loop and returns [None],
    and [set_parameter] returns normally, having stored the value under
    the typeform [None]. *)
Theorem set_parameter_object_stored :
  scalar_kind (PyObject None) = None /\
  raises (py_iter (PyObject None)) /\
  (forall T stype,
     (T, stype) ∈ _python_builtins -> isinstance (PyObject None) T = false) /\
  identify_object_typeform (PyObject None) = Return None /\
  set_parameter "k" (PyObject None) from_nothing_v1 =
    (Return None, __init__ {["k" := (None, PyObject None)]}) /\
  ~ raises (set_parameter "k" (PyObject None) from_nothing_v1).1.
Proof.
  assert (Hnot : forall T stype,
             (T, stype) ∈ _python_builtins ->
             isinstance (PyObject None) T = false).
  { intros T stype Hin. apply list_elem_of_In in Hin. simpl in Hin.
    repeat destruct Hin as [Hin|Hin]; try contradiction;
      injection Hin as <- <-; reflexivity. }
  assert (Hset : set_parameter "k" (PyObject None) from_nothing_v1 =
                 (Return None, __init__ {["k" := (None, PyObject None)]})).
  { rewrite (set_parameter_unclassifiable _ _ _ (TypeError "object is not iterable"));
      [|reflexivity|reflexivity|exact Hnot].
    simpl. rewrite lookup_empty, insert_empty. reflexivity. }
  split; [reflexivity|]. split; [exact I|]. split; [exact Hnot|].
  split; [reflexivity|]. split; [exact Hset|].
  rewrite Hset. simpl. tauto.
Qed.

(** ** Classification of collections *)

(** C4.  A collection that is not itself of a scalar kind, and whose
    elements are scalars of the one kind [stype], is classified
    [('v-set', stype)] when it is an instance of [set] and
    [('v-sequence', stype)] otherwise.  The form of the first element's
    typeform has to be ['value'] or ['representation']: a collection whose
    first element is such a collection is refused by the assertion. *)
Theorem identify_scalar_collection obj first rest stype :
  scalar_kind obj = None ->
  py_iter obj = Return (first :: rest) ->
  Forall (fun x => scalar_kind x = Some stype) (first :: rest) ->
  identify_object_typeform obj =
    Return (Some (if isinstance obj Tset then "v-set" else "v-sequence", stype))
  /\ (forall outer more,
        scalar_kind outer = None ->
        py_iter outer = Return (obj :: more) ->
        identify_object_typeform outer = Raise AssertionError)
  /\ (forall outer x more tf,
        scalar_kind outer = None ->
        py_iter outer = Return (x :: more) ->
        identify_object_typeform x = Return (Some tf) ->
        tf.1 <> "value" -> tf.1 <> "representation" ->
        identify_object_typeform outer = Raise AssertionError).
Proof.
  intros Hk Hi Hall.
  assert (Hobj : identify_object_typeform obj =
                 Return (Some (if isinstance obj Tset then "v-set" else "v-sequence",
                               stype))).
  { inversion Hall as [|? ? Hfirst _]; subst.
    rewrite (identify_first obj first rest Hk Hi).
    rewrite (identify_scalar first stype Hfirst). simpl.
    destruct (isinstance obj Tset); reflexivity. }
  assert (Hassert : forall outer x more tf,
             scalar_kind outer = None ->
             py_iter outer = Return (x :: more) ->
             identify_object_typeform x = Return (Some tf) ->
             tf.1 <> "value" -> tf.1 <> "representation" ->
             identify_object_typeform outer = Raise AssertionError).
  { intros outer x more tf Hko Hio Hx Hv Hr.
    rewrite (identify_first outer x more Hko Hio), Hx.
    rewrite !bool_decide_eq_false_2 by assumption. reflexivity. }
  split; [exact Hobj|]. split; [|exact Hassert].
  intros outer more Hko Hio.
  eapply Hassert; [exact Hko | exact Hio | exact Hobj | |];
    destruct (isinstance obj Tset); simpl; discriminate.
Qed.

Lemma identify_scalar_collection_witness :
  identify_object_typeform (PySet None [PyStr None "a"; PyStr None "b"]) =
    Return (Some ("v-set", "string"))
  /\ identify_object_typeform (PyTuple None [PyInt None 1; PyInt None 2]) =
    Return (Some ("v-sequence", "integer"))
  /\ identify_object_typeform
       (PyList None [PySet None [PyStr None "a"; PyStr None "b"]]) =
    Raise AssertionError.
Proof.
  destruct (identify_scalar_collection
              (PySet None [PyStr None "a"; PyStr None "b"])
              (PyStr None "a") [PyStr None "b"] "string")
    as (Hset & Hnested & _);
    [reflexivity | reflexivity | repeat constructor |].
  destruct (identify_scalar_collection
              (PyTuple None [PyInt None 1; PyInt None 2])
              (PyInt None 1) [PyInt None 2] "integer")
    as (Htuple & _ & _);
    [reflexivity | reflexivity | repeat constructor |].
  split; [exact Hset|]. split; [exact Htuple|].
  apply (Hnested (PyList None [PySet None [PyStr None "a"; PyStr None "b"]]) []);
    reflexivity.
Defined.

(** A [frozenset] is not an instance of [set]: it is classified as a
    sequence. *)
Example identify_frozenset :
  identify_object_typeform (PyFrozenset None [PyStr None "a"]) =
    Return (Some ("v-sequence", "string")).
Proof. reflexivity. Qed.

(** An instance of a class deriving from [str] is iterated before the
    subclass scan is reached: it is classified as a sequence of strings,
    and refused when it is empty. *)
Example identify_str_subclass :
  identify_object_typeform (PyStr (Some "Label") "ab") =
    Return (Some ("v-sequence", "string"))
  /\ identify_object_typeform (PyStr (Some "Label") "") = Raise empty_iterator_error
  /\ identify_object_typeform (PyInt (Some "Count") 3) = Return (Some ("value", "integer")).
Proof. repeat split. Qed.

(** ** Empty collections *)

(** C5.  An iterable that is not of a scalar kind and produces no element
    is refused by the classifier with [ValueError], and so by every call
    that classifies it: [set_parameter] and [__setitem__] raise that error
    and leave the storage as it was, and [update] and [from_pairs_v1]
    raise when the value is among their pairs. *)
Theorem empty_collection_refused obj :
  scalar_kind obj = None ->
  py_iter obj = Return [] ->
  identify_object_typeform obj = Raise empty_iterator_error
  /\ (forall key self,
        set_parameter key obj self = (Raise empty_iterator_error, self))
  /\ (forall key self,
        __setitem__ key obj self = (Raise empty_iterator_error, self))
  /\ (forall pairiter key self,
        (key, obj) ∈ pairiter -> raises (update pairiter self).1)
  /\ (forall iterpairs key,
        (key, obj) ∈ iterpairs -> raises (from_pairs_v1 iterpairs)).
Proof.
  intros Hk Hi. pose proof (identify_empty obj Hk Hi) as Hid.
  fold empty_iterator_error in Hid.
  split; [exact Hid|]. split; [|split; [|split]].
  - intros key self. apply set_parameter_raises, Hid.
  - intros key self. unfold __setitem__.
    rewrite (set_parameter_raises self key obj _ Hid). reflexivity.
  - intros pairiter key self Hin. eapply update_raises; [exact Hin|].
    rewrite Hid. exact I.
  - intros iterpairs key Hin. unfold from_pairs_v1.
    pose proof (typeform_dict_raises iterpairs ∅ key obj Hin) as Hraise.
    rewrite Hid in Hraise. specialize (Hraise I).
    destruct (typeform_dict iterpairs ∅); [contradiction|exact I].
Qed.

Lemma empty_collection_refused_witness :
  identify_object_typeform (PyList None []) = Raise empty_iterator_error
  /\ identify_object_typeform (PyTuple None []) = Raise empty_iterator_error
  /\ set_parameter "k" (PySet None []) from_nothing_v1 =
       (Raise empty_iterator_error, from_nothing_v1)
  /\ raises (update [("a", PyInt None 1); ("k", PyList None [])] from_nothing_v1).1.
Proof.
  destruct (empty_collection_refused (PyList None []))
    as (Hlist & _ & _ & Hupdate & _); [reflexivity | reflexivity |].
  destruct (empty_collection_refused (PyTuple None []))
    as (Htuple & _); [reflexivity | reflexivity |].
  destruct (empty_collection_refused (PySet None []))
    as (_ & Hset & _); [reflexivity | reflexivity |].
  split; [exact Hlist|]. split; [exact Htuple|]. split; [apply Hset|].
  apply (Hupdate _ "k"). right. left.
Defined.

(** ** Reading and writing one key *)

(** C9.  For a key the storage holds, the subscript read [p[k]] is
    [None]: [__getitem__] drops what [get_parameter] returns, and
    [get_parameter] itself returns the stored value. *)
Theorem getitem_drops_value self key e :
  _storage self !! key = Some e ->
  __getitem__ key self = Return PyNone /\ get_parameter key self = Return e.2.
Proof.
  intros Hlook. unfold __getitem__, get_parameter. rewrite Hlook. auto.
Qed.

Lemma getitem_drops_value_witness :
  __getitem__ "count" (__init__ {["count" := (Some ("value", "integer"), PyInt None 3)]})
    = Return PyNone
  /\ get_parameter "count"
       (__init__ {["count" := (Some ("value", "integer"), PyInt None 3)]})
    = Return (PyInt None 3).
Proof.
  apply (getitem_drops_value
           (__init__ {["count" := (Some ("value", "integer"), PyInt None 3)]})
           "count" (Some ("value", "integer"), PyInt None 3)).
  apply lookup_singleton_eq.
Defined.

(** C10.  When classifying the value raises, [set_parameter] raises the
    same exception and the storage is what it was before the call, the
    entry under [key] included. *)
Theorem set_parameter_atomic self key value e :
  identify_object_typeform value = Raise e ->
  (set_parameter key value self).1 = Raise e
  /\ (set_parameter key value self).2 = self
  /\ _storage (set_parameter key value self).2 !! key = _storage self !! key.
Proof.
  intros Hid. unfold set_parameter. rewrite Hid. auto.
Qed.

Lemma set_parameter_atomic_witness :
  let self := __init__ {["k" := (Some ("value", "integer"), PyInt None 3)]} in
  (set_parameter "k" (PyList None []) self).1 = Raise empty_iterator_error
  /\ (set_parameter "k" (PyList None []) self).2 = self
  /\ _storage (set_parameter "k" (PyList None []) self).2 !! "k"
     = _storage self !! "k".
Proof.
  apply (set_parameter_atomic
           (__init__ {["k" := (Some ("value", "integer"), PyInt None 3)]})
           "k" (PyList None []) empty_iterator_error).
  reflexivity.
Defined.

(** C3.  Two [set_parameter] calls on one key, with values the classifier
    answers for: the first returns what the storage held under the key
    ([None] when it held nothing), the second returns the pair the first
    stored, and the storage ends with the single item [(tf2, v2)] under
    the key. *)
Theorem set_parameter_twice self key v1 v2 tf1 tf2 :
  identify_object_typeform v1 = Return tf1 ->
  identify_object_typeform v2 = Return tf2 ->
  exists self1 self2,
    set_parameter key v1 self = (Return (_storage self !! key), self1)
    /\ set_parameter key v2 self1 = (Return (Some (tf1, v1)), self2)
    /\ entries key self2 = [(key, (tf2, v2))]
    /\ _storage self2 !! key = Some (tf2, v2)
    /\ (_storage self !! key = None ->
        (set_parameter key v1 self).1 = Return None).
Proof.
  intros Hid1 Hid2.
  exists (__init__ (<[key := (tf1, v1)]> (_storage self))).
  exists (__init__ (<[key := (tf2, v2)]> (<[key := (tf1, v1)]> (_storage self)))).
  split; [apply set_parameter_returns, Hid1|].
  split.
  { rewrite (set_parameter_returns _ key v2 tf2 Hid2). simpl.
    rewrite lookup_insert_eq. reflexivity. }
  split; [apply entries_lookup; simpl; apply lookup_insert_eq|].
  split; [simpl; apply lookup_insert_eq|].
  intros Habsent. rewrite (set_parameter_returns _ key v1 tf1 Hid1). simpl.
  rewrite Habsent. reflexivity.
Qed.

Lemma set_parameter_twice_witness :
  exists self1 self2,
    set_parameter "n" (PyInt None 1) from_nothing_v1
      = (Return (_storage from_nothing_v1 !! "n"), self1)
    /\ set_parameter "n" (PyList None [PyStr None "x"]) self1
      = (Return (Some (Some ("value", "integer"), PyInt None 1)), self2)
    /\ entries "n" self2
      = [("n", (Some ("v-sequence", "string"), PyList None [PyStr None "x"]))]
    /\ _storage self2 !! "n"
      = Some (Some ("v-sequence", "string"), PyList None [PyStr None "x"])
    /\ (_storage from_nothing_v1 !! "n" = None ->
        (set_parameter "n" (PyInt None 1) from_nothing_v1).1 = Return None).
Proof.
  apply (set_parameter_twice from_nothing_v1 "n" (PyInt None 1)
           (PyList None [PyStr None "x"])
           (Some ("value", "integer")) (Some ("v-sequence", "string")));
    reflexivity.
Defined.

(** ** References *)

(** X19.  When the storage holds [target] under a typeform pair [tf],
    [set_reference key target] returns the type name [tf.2] and files
    [key] under [('reference', tf.2)] with the string [target] as its
    value; later calls that write other keys, [target] among them, leave
    that item as it is.  When the storage does not hold [target] the call
    raises [KeyError] and writes nothing. *)
Theorem set_reference_fixes_tag self key target :
  (forall tf value,
     _storage self !! target = Some (Some tf, value) ->
     set_reference key target self =
       (Return tf.2,
        __init__ (<[key := (Some ("reference", tf.2), PyStr None target)]>
                    (_storage self)))
     /\ (forall calls,
           Forall (fun c => key ∉ written c) calls ->
           _storage (foldl (flip run) (set_reference key target self).2 calls) !! key
           = Some (Some ("reference", tf.2), PyStr None target)))
  /\ (_storage self !! target = None ->
      set_reference key target self = (Raise (KeyError target), self)).
Proof.
  split.
  - intros tf value Hlook.
    assert (Hcall : set_reference key target self =
              (Return tf.2,
               __init__ (<[key := (Some ("reference", tf.2), PyStr None target)]>
                           (_storage self)))).
    { unfold set_reference. rewrite Hlook. reflexivity. }
    split; [exact Hcall|].
    intros calls Hcalls. rewrite calls_other_keys by assumption.
    rewrite Hcall. simpl. apply lookup_insert_eq.
  - intros Habsent. unfold set_reference. rewrite Habsent. reflexivity.
Qed.

Lemma set_reference_fixes_tag_witness :
  let self := __init__ {["size" := (Some ("value", "integer"), PyInt None 3)]} in
  set_reference "alias" "size" self =
    (Return "integer",
     __init__ (<["alias" := (Some ("reference", "integer"), PyStr None "size")]>
                 (_storage self)))
  /\ _storage (foldl (flip run) (set_reference "alias" "size" self).2
                 [Set_parameter "size" (PyStr None "large")]) !! "alias"
     = Some (Some ("reference", "integer"), PyStr None "size")
  /\ set_reference "alias" "missing" self = (Raise (KeyError "missing"), self).
Proof.
  intros self.
  destruct (set_reference_fixes_tag self "alias" "size") as [Hpresent _].
  pose proof (Hpresent ("value", "integer") (PyInt None 3)
                (lookup_singleton_eq _ _)) as [Hcall Hlater].
  destruct (set_reference_fixes_tag self "alias" "missing") as [_ Habsent].
  split; [exact Hcall|]. split.
  - apply Hlater. repeat constructor. simpl.
    apply not_elem_of_cons. split; [discriminate | apply not_elem_of_nil].
  - apply Habsent. apply lookup_singleton_ne. discriminate.
Defined.

(** C6.  A store can hold [target] without a type name: [set_parameter]
    files a plain [object()] under the typeform [None].  The
    specification asks that [set_reference] on a store containing
    [target] store the reference and return the type name; on this store
    it raises [TypeError], from subscripting [None], and writes
    nothing. *)
Theorem set_reference_untagged_target :
  let self := (set_parameter "k" (PyObject None) from_nothing_v1).2 in
  _storage self !! "k" = Some (None, PyObject None)
  /\ set_reference "r" "k" self
     = (Raise (TypeError "'NoneType' object is not subscriptable"), self)
  /\ _storage (set_reference "r" "k" self).2 !! "r" = None.
Proof.
  assert (Hself : (set_parameter "k" (PyObject None) from_nothing_v1).2
                  = __init__ {["k" := (None, PyObject None)]}).
  { rewrite (set_parameter_returns from_nothing_v1 "k" (PyObject None) None eq_refl).
    simpl. rewrite insert_empty. reflexivity. }
  cbv zeta. rewrite Hself. unfold set_reference. simpl.
  rewrite lookup_singleton_eq. simpl.
  split; [reflexivity|]. split; [reflexivity|].
  apply lookup_singleton_ne. discriminate.
Qed.

(** ** Stores built from pairs *)

(** C2.  For pairs with distinct keys whose values are supported scalars
    or non-empty collections of scalars of one kind, [from_pairs_v1]
    returns a store, and [get_parameter] on the key of each pair returns
    the value of that pair. *)
Theorem from_pairs_roundtrip iterpairs :
  NoDup iterpairs.*1 ->
  Forall (fun kv => supported kv.2) iterpairs ->
  exists self,
    from_pairs_v1 iterpairs = Return self
    /\ forall key value,
         (key, value) ∈ iterpairs -> get_parameter key self = Return value.
Proof.
  intros Hnd Hall.
  destruct (typeform_dict_total iterpairs ∅) as [storage Hret].
  { eapply Forall_impl; [exact Hall|]. intros [k v] Hs. simpl in *.
    destruct (supported_classified v Hs) as [tf Hid]. eauto. }
  exists (__init__ storage). unfold from_pairs_v1. rewrite Hret.
  split; [reflexivity|]. intros key value Hin.
  destruct (typeform_dict_returns iterpairs ∅ storage Hret) as [_ Hkeys].
  destruct (Hkeys key) as (value' & tf & Hin' & _ & Hlook).
  { apply list_elem_of_fmap. exists (key, value). auto. }
  rewrite (unique_values iterpairs key value value' Hnd Hin Hin').
  unfold get_parameter. simpl. rewrite Hlook. reflexivity.
Qed.

Lemma example_pairs_supported : Forall (fun kv => supported kv.2) example_pairs.
Proof.
  constructor; [left; eexists; reflexivity|].
  constructor; [left; eexists; reflexivity|].
  constructor; [|constructor].
  right. split; [reflexivity|].
  exists (PyStr None "a"), [PyStr None "b"], "string".
  split; [reflexivity | repeat constructor].
Qed.

Lemma example_pairs_keys : NoDup example_pairs.*1.
Proof.
  unfold example_pairs. simpl.
  repeat (constructor; [rewrite ?not_elem_of_cons; repeat split;
                        solve [discriminate | apply not_elem_of_nil]|]).
  constructor.
Qed.

Lemma from_pairs_roundtrip_witness :
  exists self,
    from_pairs_v1 example_pairs = Return self
    /\ forall key value,
         (key, value) ∈ example_pairs -> get_parameter key self = Return value.
Proof.
  apply (from_pairs_roundtrip example_pairs
           example_pairs_keys example_pairs_supported).
Defined.

(** C7.  Two lists of pairs that hold the same key/value associations,
    each key with one value, in whatever order: when [from_pairs_v1]
    builds a store from one it builds a store from the other and [__eq__]
    holds between the two.  In general [__eq__] holds exactly when the
    two [_storage] mappings are equal. *)
Theorem from_pairs_order_irrelevant pairs1 pairs2 self1 :
  (forall kv, kv ∈ pairs1 <-> kv ∈ pairs2) ->
  (forall key v v', (key, v) ∈ pairs1 -> (key, v') ∈ pairs1 -> v = v') ->
  from_pairs_v1 pairs1 = Return self1 ->
  (exists self2, from_pairs_v1 pairs2 = Return self2 /\ __eq__ self1 self2 = true)
  /\ (forall p q, __eq__ p q = true <-> _storage p = _storage q).
Proof.
  intros Hsame Hfun Hret1. split.
  - unfold from_pairs_v1 in *.
    destruct (typeform_dict pairs1 ∅) as [m1|] eqn:Hm1; [|discriminate].
    injection Hret1 as <-.
    destruct (typeform_dict_total pairs2 ∅) as [m2 Hm2].
    { pose proof (typeform_dict_classified pairs1 ∅ m1 Hm1) as Hall.
      rewrite Forall_forall in Hall. apply Forall_forall.
      intros kv Hin. apply Hall, Hsame, Hin. }
    rewrite Hm2. exists (__init__ m2). split; [reflexivity|].
    unfold __eq__. simpl. apply bool_decide_eq_true. apply map_eq. intros key.
    destruct (typeform_dict_returns pairs1 ∅ m1 Hm1) as [Hout1 Hin1].
    destruct (typeform_dict_returns pairs2 ∅ m2 Hm2) as [Hout2 Hin2].
    destruct (decide (key ∈ pairs1.*1)) as [Hkey|Hkey].
    + destruct (Hin1 key Hkey) as (v1 & tf1 & Hmem1 & Hid1 & ->).
      destruct (Hin2 key) as (v2 & tf2 & Hmem2 & Hid2 & ->).
      { apply list_elem_of_fmap. exists (key, v1). split; [reflexivity|].
        apply Hsame, Hmem1. }
      apply Hsame in Hmem2.
      rewrite (Hfun key v1 v2 Hmem1 Hmem2) in *. congruence.
    + rewrite Hout1 by assumption. rewrite Hout2; [reflexivity|].
      intros Hkey2. apply Hkey.
      apply list_elem_of_fmap in Hkey2 as [kv [-> Hkv]].
      apply list_elem_of_fmap. exists kv. split; [reflexivity|].
      apply Hsame, Hkv.
  - intros p q. unfold __eq__. rewrite bool_decide_eq_true. split; congruence.
Qed.

Lemma pairs_ab_ba kv : kv ∈ pairs_ab <-> kv ∈ pairs_ba.
Proof.
  unfold pairs_ab, pairs_ba. rewrite !elem_of_cons, !elem_of_nil. tauto.
Qed.

Lemma pairs_ab_functional key v v' :
  (key, v) ∈ pairs_ab -> (key, v') ∈ pairs_ab -> v = v'.
Proof.
  unfold pairs_ab. rewrite !elem_of_cons, !elem_of_nil.
  intros [H|[H|[]]] [H'|[H'|[]]]; congruence.
Qed.

Lemma from_pairs_order_irrelevant_witness :
  (exists self2, from_pairs_v1 pairs_ba = Return self2 /\ __eq__ store_ab self2 = true)
  /\ (forall p q, __eq__ p q = true <-> _storage p = _storage q).
Proof.
  apply (from_pairs_order_irrelevant pairs_ab pairs_ba store_ab
           pairs_ab_ba pairs_ab_functional).
  reflexivity.
Defined.

(** When one key is paired with two different values the pair produced
    last is the one stored, so the order of such pairs shows in the store. *)
Example from_pairs_last_pair_wins :
  from_pairs_v1 [("a", PyInt None 1); ("a", PyInt None 2)] =
    Return (__init__ {["a" := (Some ("value", "integer"), PyInt None 2)]})
  /\ from_pairs_v1 [("a", PyInt None 2); ("a", PyInt None 1)] =
    Return (__init__ {["a" := (Some ("value", "integer"), PyInt None 1)]}).
Proof.
  unfold from_pairs_v1. simpl. rewrite !insert_insert_eq, !insert_empty.
  split; reflexivity.
Qed.

(** ** EStruct.__repr__ *)

(** C8.  The rendering carries the segment [:code] when the decimal
    numeral of [code] differs from [identifier], and leaves it out when
    the two are the same string; the [posix.errno] descriptor of
    [EINTR] is rendered without it. *)
Theorem repr_code_segment (self : EStruct.t) :
  (py_str_int (EStruct.code self) <> EStruct.identifier self ->
   EStruct.__repr__ self =
     Return ("<[" ++ EStruct.protocol self ++ "#" ++ EStruct.identifier self
             ++ ":" ++ py_str_int (EStruct.code self)
             ++ "] " ++ EStruct.symbol self
             ++ ": " ++ py_repr_str (EStruct.abstract self) ++ ">"))
  /\ (py_str_int (EStruct.code self) = EStruct.identifier self ->
      EStruct.__repr__ self =
        Return ("<[" ++ EStruct.protocol self ++ "#" ++ EStruct.identifier self
                ++ "] " ++ EStruct.symbol self
                ++ ": " ++ py_repr_str (EStruct.abstract self) ++ ">"))
  /\ EStruct.__repr__
       (EStruct.from_arguments_v1 "posix.errno" "4" 4 "EINTR" "Interrupted system call")
     = Return "<[posix.errno#4] EINTR: 'Interrupted system call'>".
Proof.
  split; [|split].
  - intros Hne. unfold EStruct.__repr__.
    rewrite bool_decide_eq_true_2 by assumption. reflexivity.
  - intros Heq. unfold EStruct.__repr__.
    rewrite bool_decide_eq_false_2 by (intros Hne; apply Hne, Heq). reflexivity.
  - reflexivity.
Qed.

Lemma repr_code_segment_witness :
  EStruct.__repr__
    (EStruct.from_arguments_v1 "sql.state" "42P01" 42 "undefined_table" "no such table")
  = Return "<[sql.state#42P01:42] undefined_table: 'no such table'>"
  /\ EStruct.__repr__
       (EStruct.from_arguments_v1 "posix.errno" "4" 4 "EINTR" "Interrupted system call")
     = Return "<[posix.errno#4] EINTR: 'Interrupted system call'>".
Proof.
  destruct (repr_code_segment
              (EStruct.from_arguments_v1 "sql.state" "42P01" 42 "undefined_table"
                 "no such table")) as (Hwith & _ & Hexample).
  split; [|exact Hexample].
  rewrite Hwith; [reflexivity | discriminate].
Defined.

(** * Further properties of the code *)

(** ** update *)

Lemma update_app pre :
  forall post self,
    update (pre ++ post) self =
      match update pre self with
      | (Return _, self') => update post self'
      | (Raise e, self') => (Raise e, self')
      end.
Proof.
  induction pre as [|[k v] pre IH]; intros post self; simpl; [reflexivity|].
  destruct (identify_object_typeform v) as [tf|e]; [apply IH | reflexivity].
Qed.

Lemma update_classifiable pairs :
  forall self, classifiable pairs -> (update pairs self).1 = Return tt.
Proof.
  induction pairs as [|[k v] pairs IH]; intros self Hall; simpl; [reflexivity|].
  inversion Hall as [|? ? [tf Hid] Hrest]; subst. simpl in Hid. rewrite Hid.
  apply IH, Hrest.
Qed.

Lemma update_set_each pairs :
  forall self, classifiable pairs -> (update pairs self).2 = set_each pairs self.
Proof.
  induction pairs as [|[k v] pairs IH]; intros self Hall; simpl; [reflexivity|].
  inversion Hall as [|? ? [tf Hid] Hrest]; subst. simpl in Hid. rewrite Hid.
  rewrite IH by assumption. unfold set_each. simpl.
  rewrite (set_parameter_returns self k v tf Hid). reflexivity.
Qed.

Lemma update_last pre key value post self :
  classifiable (pre ++ (key, value) :: post) ->
  key ∉ post.*1 ->
  exists tf,
    identify_object_typeform value = Return tf
    /\ _storage (update (pre ++ (key, value) :: post) self).2 !! key = Some (tf, value).
Proof.
  intros Hall Hlast. unfold classifiable in Hall.
  apply Forall_app in Hall as [Hpre Hrest].
  inversion Hrest as [|? ? [tf Hid] Hpost]; subst. simpl in Hid.
  exists tf. split; [exact Hid|].
  rewrite update_app.
  pose proof (update_classifiable pre self Hpre) as Hret.
  destruct (update pre self) as [[[]|e] self1]; simpl in Hret; [|discriminate].
  simpl. rewrite Hid. rewrite update_other_keys by assumption.
  simpl. apply lookup_insert_eq.
Qed.

Lemma last_occurrence (pairs : list (string * pyobj)) key :
  key ∈ pairs.*1 ->
  exists (pre : list (string * pyobj)) value post,
    pairs = (pre ++ (key, value) :: post)%list /\ key ∉ post.*1.
Proof.
  induction pairs as [|[k v] pairs IH]; intros Hin.
  - apply elem_of_nil in Hin. contradiction.
  - destruct (decide (key ∈ pairs.*1)) as [Hlater|Hlater].
    + destruct (IH Hlater) as (pre & value & post & -> & Hlast).
      exists ((k, v) :: pre), value, post. split; [reflexivity | exact Hlast].
    + rewrite fmap_cons, elem_of_cons in Hin.
      destruct Hin as [->|Hin]; [|contradiction].
      exists [], v, pairs. split; [reflexivity | exact Hlater].
Qed.

Lemma typeform_dict_update pairs :
  forall acc,
    match update pairs (__init__ acc) with
    | (Return _, self) => typeform_dict pairs acc = Return (_storage self)
    | (Raise e, _) => typeform_dict pairs acc = Raise e
    end.
Proof.
  induction pairs as [|[k v] pairs IH]; intros acc; simpl; [reflexivity|].
  destruct (identify_object_typeform v) as [tf|e]; [apply IH | reflexivity].
Qed.

(** X1.  [update] writes pair by pair.  When the value of a pair fails to
    classify, the call raises that exception with the pairs before it
    already stored: the store is left as [update] on those pairs alone
    leaves it, and every key among them is present. *)
Theorem update_keeps_earlier_pairs pre key value post self e :
  classifiable pre ->
  identify_object_typeform value = Raise e ->
  update (pre ++ (key, value) :: post) self = (Raise e, (update pre self).2)
  /\ (update pre self).1 = Return tt
  /\ (forall k, k ∈ pre.*1 ->
        is_Some (_storage (update (pre ++ (key, value) :: post) self).2 !! k)).
Proof.
  intros Hpre Hid.
  pose proof (update_classifiable pre self Hpre) as Hret.
  assert (Hcall : update (pre ++ (key, value) :: post) self
                  = (Raise e, (update pre self).2)).
  { rewrite update_app.
    destruct (update pre self) as [[[]|e'] self1]; simpl in Hret; [|discriminate].
    simpl. rewrite Hid. reflexivity. }
  split; [exact Hcall|]. split; [exact Hret|].
  intros k Hk. rewrite Hcall. simpl.
  destruct (last_occurrence pre k Hk) as (pre' & v & post' & -> & Hlast).
  destruct (update_last pre' k v post' self Hpre Hlast) as (tf & _ & Hlook).
  rewrite Hlook. eexists. reflexivity.
Qed.

Lemma update_keeps_earlier_pairs_witness :
  update [("a", PyInt None 1); ("b", PyList None []); ("c", PyInt None 3)]
    from_nothing_v1
  = (Raise empty_iterator_error, (update [("a", PyInt None 1)] from_nothing_v1).2)
  /\ (update [("a", PyInt None 1)] from_nothing_v1).1 = Return tt
  /\ is_Some (_storage
                (update [("a", PyInt None 1); ("b", PyList None []); ("c", PyInt None 3)]
                   from_nothing_v1).2 !! "a").
Proof.
  destruct (update_keeps_earlier_pairs [("a", PyInt None 1)] "b" (PyList None [])
              [("c", PyInt None 3)] from_nothing_v1 empty_iterator_error)
    as (Hcall & Hret & Hkeys).
  - repeat constructor. eexists. reflexivity.
  - reflexivity.
  - split; [exact Hcall|]. split; [exact Hret|]. apply Hkeys. left.
Defined.

(** X2.  When every value classifies, [update] returns [None] and leaves
    the store that successive [set_parameter] calls on the pairs leave. *)
Theorem update_is_set_parameter_each pairs self :
  classifiable pairs ->
  update pairs self = (Return tt, set_each pairs self).
Proof.
  intros Hall.
  pose proof (update_classifiable pairs self Hall) as Hret.
  pose proof (update_set_each pairs self Hall) as Hstate.
  destruct (update pairs self) as [r self']. simpl in *. congruence.
Qed.

Lemma update_is_set_parameter_each_witness :
  update example_pairs from_nothing_v1
  = (Return tt, set_each example_pairs from_nothing_v1).
Proof.
  apply (update_is_set_parameter_each example_pairs from_nothing_v1).
  repeat constructor; eexists; reflexivity.
Defined.

(** X3.  [from_pairs_v1] builds what [update] makes of an empty store: it
    returns the store [update] leaves when [update] returns, and raises
    the exception [update] raises, in which case no store is built. *)
Theorem from_pairs_is_update_of_nothing pairs :
  from_pairs_v1 pairs =
    match update pairs from_nothing_v1 with
    | (Return _, self) => Return self
    | (Raise e, _) => Raise e
    end.
Proof.
  unfold from_pairs_v1, from_nothing_v1.
  pose proof (typeform_dict_update pairs ∅) as H.
  destruct (update pairs (__init__ ∅)) as [[[]|e] [storage]]; rewrite H; reflexivity.
Qed.

(** X4.  When the pairs repeat a key, the last pair with that key is the
    one read back, after [update] as after [from_pairs_v1]. *)
Theorem last_pair_is_read_back pre key value post self :
  classifiable (pre ++ (key, value) :: post) ->
  key ∉ post.*1 ->
  get_parameter key (update (pre ++ (key, value) :: post) self).2 = Return value
  /\ exists store,
       from_pairs_v1 (pre ++ (key, value) :: post) = Return store
       /\ get_parameter key store = Return value.
Proof.
  intros Hall Hlast. split.
  - destruct (update_last pre key value post self Hall Hlast) as (tf & _ & Hlook).
    unfold get_parameter. rewrite Hlook. reflexivity.
  - destruct (update_last pre key value post from_nothing_v1 Hall Hlast)
      as (tf & _ & Hlook).
    pose proof (update_classifiable _ from_nothing_v1 Hall) as Hret.
    pose proof (typeform_dict_update (pre ++ (key, value) :: post) ∅) as Hdict.
    fold from_nothing_v1 in Hdict.
    destruct (update (pre ++ (key, value) :: post) from_nothing_v1)
      as [[[]|e] store]; simpl in Hret; [|discriminate].
    exists store. unfold from_pairs_v1. rewrite Hdict.
    destruct store as [storage]. split; [reflexivity|].
    unfold get_parameter. simpl in *. rewrite Hlook. reflexivity.
Qed.

Lemma last_pair_is_read_back_witness :
  get_parameter "a"
    (update [("a", PyInt None 1); ("b", PyInt None 5); ("a", PyInt None 2)]
       from_nothing_v1).2
  = Return (PyInt None 2)
  /\ exists store,
       from_pairs_v1 [("a", PyInt None 1); ("b", PyInt None 5); ("a", PyInt None 2)]
       = Return store
       /\ get_parameter "a" store = Return (PyInt None 2).
Proof.
  apply (last_pair_is_read_back [("a", PyInt None 1); ("b", PyInt None 5)]
           "a" (PyInt None 2) [] from_nothing_v1).
  - repeat constructor; eexists; reflexivity.
  - apply not_elem_of_nil.
Defined.

(** ** Writing and reading *)

(** X5.  A [set_parameter] that returns is read back by [get_parameter],
    every other key reads as before, and the subscript assignment
    [p[key] = value] leaves the same store. *)
Theorem set_parameter_then_get self key value tf :
  identify_object_typeform value = Return tf ->
  get_parameter key (set_parameter key value self).2 = Return value
  /\ (forall k, k <> key ->
        get_parameter k (set_parameter key value self).2 = get_parameter k self)
  /\ (__setitem__ key value self).2 = (set_parameter key value self).2.
Proof.
  intros Hid. unfold __setitem__.
  rewrite (set_parameter_returns self key value tf Hid). simpl.
  unfold get_parameter. simpl. split; [|split].
  - rewrite lookup_insert_eq. reflexivity.
  - intros k Hne. rewrite lookup_insert_ne by congruence. reflexivity.
  - reflexivity.
Qed.

Lemma set_parameter_then_get_witness :
  get_parameter "tags"
    (set_parameter "tags" (PySet None [PyStr None "a"]) from_nothing_v1).2
  = Return (PySet None [PyStr None "a"])
  /\ (forall k, k <> "tags" ->
        get_parameter k
          (set_parameter "tags" (PySet None [PyStr None "a"]) from_nothing_v1).2
        = get_parameter k from_nothing_v1)
  /\ (__setitem__ "tags" (PySet None [PyStr None "a"]) from_nothing_v1).2
     = (set_parameter "tags" (PySet None [PyStr None "a"]) from_nothing_v1).2.
Proof.
  apply (set_parameter_then_get from_nothing_v1 "tags" (PySet None [PyStr None "a"])
           (Some ("v-set", "string"))).
  reflexivity.
Defined.

(** X6.  Whatever the writing calls and however each ends, a key none of
    them is asked to write reads afterwards as it read before. *)
Theorem calls_leave_other_keys calls self key :
  Forall (fun c => key ∉ written c) calls ->
  get_parameter key (foldl (flip run) self calls) = get_parameter key self.
Proof.
  intros Hcalls. unfold get_parameter.
  rewrite (calls_other_keys calls self key Hcalls). reflexivity.
Qed.

Lemma calls_leave_other_keys_witness :
  get_parameter "kept"
    (foldl (flip run)
       (__init__ {["kept" := (Some ("value", "integer"), PyInt None 7)]})
       [Set_parameter "a" (PyList None []); Set_rvalue "iso8601" "when" "2020-01-01";
        Update [("b", PyInt None 1); ("c", PyObject None)]])
  = get_parameter "kept"
      (__init__ {["kept" := (Some ("value", "integer"), PyInt None 7)]}).
Proof.
  apply (calls_leave_other_keys
           [Set_parameter "a" (PyList None []); Set_rvalue "iso8601" "when" "2020-01-01";
            Update [("b", PyInt None 1); ("c", PyObject None)]]).
  repeat constructor; simpl; rewrite ?not_elem_of_cons;
    repeat split; solve [discriminate | apply not_elem_of_nil].
Defined.

(** X7.  A reference to a reference carries the type name of the first
    target: after [set_reference a target], [set_reference b a] returns
    the same type name and stores [a], not [target], as the value. *)
Theorem set_reference_chain self a b target tf value :
  _storage self !! target = Some (Some tf, value) ->
  (set_reference a target self).1 = Return tf.2
  /\ set_reference b a (set_reference a target self).2 =
       (Return tf.2,
        __init__ (<[b := (Some ("reference", tf.2), PyStr None a)]>
                    (_storage (set_reference a target self).2))).
Proof.
  intros Hlook. unfold set_reference at 1 3 4. rewrite Hlook. simpl.
  split; [reflexivity|].
  unfold set_reference. simpl. rewrite lookup_insert_eq. reflexivity.
Qed.

Lemma set_reference_chain_witness :
  let self := __init__ {["size" := (Some ("value", "integer"), PyInt None 3)]} in
  (set_reference "a" "size" self).1 = Return "integer"
  /\ set_reference "b" "a" (set_reference "a" "size" self).2 =
       (Return "integer",
        __init__ (<["b" := (Some ("reference", "integer"), PyStr None "a")]>
                    (_storage (set_reference "a" "size" self).2))).
Proof.
  intros self.
  apply (set_reference_chain self "a" "b" "size" ("value", "integer") (PyInt None 3)).
  apply lookup_singleton_eq.
Defined.

(** ** Typeforms in the store and the export *)

Lemma tagged_insert storage key tf value :
  tagged (__init__ storage) ->
  tagged (__init__ (<[key := (Some tf, value)]> storage)).
Proof.
  intros Htag k e. simpl. destruct (decide (key = k)) as [->|Hne].
  - rewrite lookup_insert_eq. intros [= <-]. simpl. eauto.
  - rewrite lookup_insert_ne by assumption. apply Htag.
Qed.

Lemma tagged_storage self : tagged (__init__ (_storage self)) <-> tagged self.
Proof. destruct self. reflexivity. Qed.

Lemma set_parameter_tagged self key value :
  tagged self -> classifies value -> tagged (set_parameter key value self).2.
Proof.
  intros Htag Hcls. unfold set_parameter.
  destruct (identify_object_typeform value) as [[tf|]|e] eqn:Hid; simpl.
  - rewrite insert_delete_eq. apply tagged_insert, tagged_storage, Htag.
  - exfalso. apply Hcls, Hid.
  - exact Htag.
Qed.

Lemma update_tagged pairiter :
  forall self,
    tagged self -> Forall (fun kv => classifies kv.2) pairiter ->
    tagged (update pairiter self).2.
Proof.
  induction pairiter as [|[k v] rest IH]; intros self Htag Hall; simpl; [exact Htag|].
  inversion Hall as [|? ? Hcls Hrest]; subst. simpl in Hcls.
  destruct (identify_object_typeform v) as [[tf|]|e] eqn:Hid; simpl.
  - apply IH; [|exact Hrest]. apply tagged_insert, tagged_storage, Htag.
  - exfalso. apply Hcls, Hid.
  - exact Htag.
Qed.

Lemma run_tagged c self : tagged self -> safe c -> tagged (run c self).
Proof.
  intros Htag Hsafe. destruct c; simpl in *.
  - unfold __setitem__.
    pose proof (set_parameter_tagged self key value Htag Hsafe) as H.
    destruct (set_parameter key value self) as [[?|?] ?]; exact H.
  - apply set_parameter_tagged; assumption.
  - apply update_tagged; assumption.
  - apply tagged_insert, tagged_storage, Htag.
  - unfold set_reference.
    destruct (_storage self !! target) as [[[tf|] v]|]; simpl; try exact Htag.
    apply tagged_insert, tagged_storage, Htag.
  - apply tagged_insert, tagged_storage, Htag.
  - apply tagged_insert, tagged_storage, Htag.
  - rewrite insert_delete_eq. apply tagged_insert, tagged_storage, Htag.
  - apply tagged_insert, tagged_storage, Htag.
  - apply tagged_insert, tagged_storage, Htag.
Qed.

Lemma calls_tagged calls :
  forall self, tagged self -> Forall safe calls -> tagged (foldl (flip run) self calls).
Proof.
  induction calls as [|c calls IH]; intros self Htag Hall; [exact Htag|].
  inversion Hall as [|? ? Hc Hrest]; subst. simpl.
  apply IH; [|exact Hrest]. apply run_tagged; assumption.
Qed.

Lemma iterspecs_items_tagged its :
  (forall k e, (k, e) ∈ its -> is_Some e.1) ->
  exists specs, consume (iterspecs_items its) = Return specs.
Proof.
  induction its as [|[k [[t|] v]] rest IH]; intros Htag; simpl.
  - eexists. reflexivity.
  - destruct IH as [specs Hspecs].
    { intros k' e' Hin. apply (Htag k' e'). right. exact Hin. }
    rewrite Hspecs. eexists. reflexivity.
  - destruct (Htag k (None, v)) as [t Ht]; [left|]. discriminate.
Qed.

Lemma iterspecs_items_raises its :
  raises (consume (iterspecs_items its)) <-> exists k v, (k, (None, v)) ∈ its.
Proof.
  induction its as [|[k [[t|] v]] rest IH]; simpl.
  - split; [contradiction|]. intros (k & v & Hin).
    apply elem_of_nil in Hin. contradiction.
  - destruct (consume (iterspecs_items rest)) as [specs|e]; simpl in *.
    + split; [contradiction|]. intros (k' & v' & Hin).
      apply elem_of_cons in Hin as [Heq|Hin]; [discriminate|].
      apply IH. eauto.
    + split; [|intros; exact I]. intros _.
      destruct (proj1 IH I) as (k' & v' & Hin). exists k', v'. right. exact Hin.
  - split; [|intros; exact I]. intros _. exists k, v. left.
Qed.

Lemma iterspecs_items_consume its :
  forall specs,
    consume (iterspecs_items its) = Return specs ->
    specs.*1.*2 = its.*1
    /\ forall form typ k v,
         (form, typ, k, v) ∈ specs <-> (k, (Some (form, typ), v)) ∈ its.
Proof.
  induction its as [|[k [[t|] v]] rest IH]; intros specs Hret; simpl in Hret.
  - injection Hret as <-. split; [reflexivity|]. intros form typ k v.
    rewrite !elem_of_nil. tauto.
  - destruct (consume (iterspecs_items rest)) as [specs'|e]; [|discriminate].
    injection Hret as <-. destruct (IH specs' eq_refl) as [Hkeys Hmem].
    split; [rewrite !fmap_cons, Hkeys; reflexivity|].
    intros form typ k' v'. rewrite !elem_of_cons, Hmem.
    destruct t as [f ty]. simpl. split.
    + intros [Heq|Hin]; [left; congruence | right; exact Hin].
    + intros [Heq|Hin]; [left; congruence | right; exact Hin].
  - discriminate.
Qed.

Lemma specification_dict_lookup iterspec :
  forall acc,
    (forall key, key ∉ iterspec.*1.*2 ->
       specification_dict iterspec acc !! key = acc !! key)
    /\ (forall key, key ∈ iterspec.*1.*2 ->
          exists form typ v,
            (form, typ, key, v) ∈ iterspec
            /\ specification_dict iterspec acc !! key = Some (Some (form, typ), v)).
Proof.
  induction iterspec as [|[[[form typ] k] v] rest IH]; intros acc; simpl.
  - split; [reflexivity|]. intros key Hin. apply elem_of_nil in Hin. contradiction.
  - destruct (IH (<[k := (Some (form, typ), v)]> acc)) as [Hout Hin]. split.
    + intros key Hnot. rewrite not_elem_of_cons in Hnot. destruct Hnot as [Hne Hnot].
      rewrite Hout by assumption. apply lookup_insert_ne. congruence.
    + intros key Hkey. destruct (decide (key ∈ rest.*1.*2)) as [Hrest|Hrest].
      * destruct (Hin key Hrest) as (form' & typ' & v' & Hmem & Hlook).
        exists form', typ', v'. split; [right; exact Hmem | exact Hlook].
      * apply elem_of_cons in Hkey as [->|Hkey]; [|contradiction].
        exists form, typ, v. split; [left|].
        rewrite Hout by assumption. apply lookup_insert_eq.
Qed.

Lemma storage_items_lookup self k e :
  (k, e) ∈ storage_items self <-> _storage self !! k = Some e.
Proof. unfold storage_items. apply elem_of_map_to_list. Qed.

(** X8.  Consuming [iterspecs] raises exactly when some entry of the
    store has the typeform [None], and then with the [TypeError] of
    subscripting [None]; such an entry is what [set_parameter] leaves for
    a value the classifier has no answer for. *)
Theorem iterspecs_raises_on_untagged self :
  (raises (consume (iterspecs self)) <->
   exists k v, _storage self !! k = Some (None, v))
  /\ (forall e, consume (iterspecs self) = Raise e ->
        e = TypeError "'NoneType' object is not subscriptable")
  /\ (forall key obj err,
        scalar_kind obj = None ->
        py_iter obj = Raise err ->
        (forall T stype, (T, stype) ∈ _python_builtins -> isinstance obj T = false) ->
        raises (consume (iterspecs (set_parameter key obj self).2))).
Proof.
  assert (Hiff : forall s, raises (consume (iterspecs s)) <->
                           exists k v, _storage s !! k = Some (None, v)).
  { intros s. unfold iterspecs. rewrite iterspecs_items_raises.
    split; intros (k & v & H); exists k, v; apply storage_items_lookup, H. }
  split; [apply Hiff|]. split.
  - unfold iterspecs. generalize (storage_items self) as its.
    induction its as [|[k [[t|] v]] rest IH]; intros e; simpl.
    + discriminate.
    + destruct (consume (iterspecs_items rest)) as [specs|e']; [discriminate|].
      intros [= <-]. apply IH. reflexivity.
    + intros [= <-]. reflexivity.
  - intros key obj err Hk Hi Hnot. apply Hiff. exists key, obj.
    rewrite (set_parameter_unclassifiable self key obj err Hk Hi Hnot). simpl.
    apply lookup_insert_eq.
Qed.

(** X9.  A store in which every entry has a typeform keeps that property
    through any writing calls whose classified values the classifier
    does not answer [None] for, and can then be exported: consuming
    [iterspecs] returns one specification per key. *)
Theorem safe_calls_keep_store_exportable calls self :
  tagged self ->
  Forall safe calls ->
  tagged (foldl (flip run) self calls)
  /\ exists specs,
       consume (iterspecs (foldl (flip run) self calls)) = Return specs
       /\ specs.*1.*2 = list_parameters (foldl (flip run) self calls).
Proof.
  intros Htag Hsafe.
  pose proof (calls_tagged calls self Htag Hsafe) as Hafter.
  split; [exact Hafter|].
  destruct (iterspecs_items_tagged (storage_items (foldl (flip run) self calls)))
    as [specs Hspecs].
  { intros k e Hin. apply (Hafter k e), storage_items_lookup, Hin. }
  exists specs. split; [exact Hspecs|].
  apply (iterspecs_items_consume _ specs Hspecs).
Qed.

Lemma from_nothing_tagged : tagged from_nothing_v1.
Proof. intros key e. simpl. rewrite lookup_empty. discriminate. Qed.

Lemma safe_calls_keep_store_exportable_witness :
  let calls :=
    [Set_parameter "n" (PyInt None 1); Set_excluded "raw" (PyObject None);
     Set_parameter "bad" (PyList None []); Set_reference "alias" "n"] in
  tagged (foldl (flip run) from_nothing_v1 calls)
  /\ exists specs,
       consume (iterspecs (foldl (flip run) from_nothing_v1 calls)) = Return specs
       /\ specs.*1.*2 = list_parameters (foldl (flip run) from_nothing_v1 calls).
Proof.
  intros calls.
  apply (safe_calls_keep_store_exportable calls from_nothing_v1 from_nothing_tagged).
  unfold calls. repeat constructor; simpl; unfold classifies; discriminate.
Defined.

(** X10.  Export and rebuild: for a store in which every entry has a
    typeform, consuming [iterspecs] returns one specification per entry,
    and [from_specification_v1] rebuilds the same store from them, in
    whatever order the items of the store are produced. *)
Theorem iterspecs_from_specification_roundtrip self its :
  tagged self ->
  its ≡ₚ storage_items self ->
  exists specs,
    consume (iterspecs_items its) = Return specs
    /\ length specs = size (_storage self)
    /\ from_specification_v1 specs = self.
Proof.
  intros Htag Hperm.
  assert (Hmem : forall k e, (k, e) ∈ its <-> _storage self !! k = Some e).
  { intros k e. rewrite Hperm. apply storage_items_lookup. }
  destruct (iterspecs_items_tagged its) as [specs Hspecs].
  { intros k e Hin. apply (Htag k e), Hmem, Hin. }
  destruct (iterspecs_items_consume its specs Hspecs) as [Hkeys Hspec].
  exists specs. split; [exact Hspecs|]. split.
  - transitivity (length its).
    + rewrite <- (length_fmap fst its), <- Hkeys, !length_fmap. reflexivity.
    + rewrite Hperm. unfold storage_items. apply length_map_to_list.
  - destruct self as [storage]. unfold from_specification_v1. f_equal.
    apply map_eq. intros key. simpl in *.
    destruct (specification_dict_lookup specs ∅) as [Hout Hin].
    destruct (decide (key ∈ specs.*1.*2)) as [Hkey|Hkey].
    + destruct (Hin key Hkey) as (form & typ & v & Hs & ->).
      symmetry. apply Hmem, Hspec, Hs.
    + rewrite Hout, lookup_empty by assumption.
      destruct (storage !! key) as [[t v]|] eqn:Hlook; [|reflexivity].
      exfalso. apply Hkey. rewrite Hkeys.
      apply list_elem_of_fmap. exists (key, (t, v)). split; [reflexivity|].
      apply Hmem, Hlook.
Qed.

Lemma iterspecs_from_specification_roundtrip_witness :
  exists specs,
    consume (iterspecs_items (storage_items store_ab)) = Return specs
    /\ length specs = size (_storage store_ab)
    /\ from_specification_v1 specs = store_ab.
Proof.
  apply (iterspecs_from_specification_roundtrip store_ab (storage_items store_ab)).
  - intros key e. unfold store_ab. simpl.
    intros Hlook. apply lookup_insert_Some in Hlook as [[_ <-]|[_ Hlook]]; [eexists; reflexivity|].
    apply lookup_insert_Some in Hlook as [[_ <-]|[_ Hlook]]; [eexists; reflexivity|].
    rewrite lookup_empty in Hlook. discriminate.
  - reflexivity.
Defined.

Lemma from_pairs_supported iterpairs :
  NoDup iterpairs.*1 ->
  Forall (fun kv => supported kv.2) iterpairs ->
  exists storage,
    typeform_dict iterpairs ∅ = Return storage
    /\ forall key e,
         storage !! key = Some e <->
         exists tf, e = (Some tf, e.2) /\ (key, e.2) ∈ iterpairs
                    /\ identify_object_typeform e.2 = Return (Some tf).
Proof.
  intros Hnd Hall.
  destruct (typeform_dict_total iterpairs ∅) as [storage Hret].
  { eapply Forall_impl; [exact Hall|]. intros [k v] Hs. simpl in *.
    destruct (supported_classified v Hs) as [tf Hid]. eauto. }
  exists storage. split; [exact Hret|].
  destruct (typeform_dict_returns iterpairs ∅ storage Hret) as [Hout Hin].
  rewrite Forall_forall in Hall.
  intros key [t v]. simpl. split.
  - intros Hlook. destruct (decide (key ∈ iterpairs.*1)) as [Hkey|Hkey].
    + destruct (Hin key Hkey) as (v' & tf' & Hmem & Hid & Hlook').
      rewrite Hlook in Hlook'. injection Hlook' as -> ->.
      destruct (supported_classified v' (Hall _ Hmem)) as [tf Htf].
      exists tf. split; [congruence|]. split; [exact Hmem | exact Htf].
    + rewrite Hout, lookup_empty in Hlook by assumption. discriminate.
  - intros (tf & Heq & Hmem & Hid). injection Heq as ->.
    destruct (Hin key) as (v' & tf' & Hmem' & Hid' & Hlook').
    { apply list_elem_of_fmap. exists (key, v). auto. }
    pose proof (unique_values iterpairs key v v' Hnd Hmem Hmem') as <-. congruence.
Qed.

(** X11.  The export of a store built from pairs: for pairs with distinct
    keys and supported values, [iterspecs] over the store
    [from_pairs_v1] returns yields, for each pair, its key and value
    with the form and type the classifier gives the value, one
    specification per key and nothing else. *)
Theorem iterspecs_of_from_pairs iterpairs :
  NoDup iterpairs.*1 ->
  Forall (fun kv => supported kv.2) iterpairs ->
  exists self specs,
    from_pairs_v1 iterpairs = Return self
    /\ consume (iterspecs self) = Return specs
    /\ NoDup specs.*1.*2
    /\ forall form typ key value,
         (form, typ, key, value) ∈ specs <->
         (key, value) ∈ iterpairs
         /\ identify_object_typeform value = Return (Some (form, typ)).
Proof.
  intros Hnd Hall.
  destruct (from_pairs_supported iterpairs Hnd Hall) as (storage & Hret & Hentries).
  assert (Htag : tagged (__init__ storage)).
  { intros key e Hlook. apply Hentries in Hlook as (tf & -> & _). simpl. eauto. }
  destruct (iterspecs_items_tagged (storage_items (__init__ storage)))
    as [specs Hspecs].
  { intros k e Hin. apply (Htag k e), storage_items_lookup, Hin. }
  destruct (iterspecs_items_consume _ specs Hspecs) as [Hkeys Hspec].
  exists (__init__ storage), specs. unfold from_pairs_v1. rewrite Hret.
  split; [reflexivity|]. split; [exact Hspecs|]. split.
  - rewrite Hkeys. unfold storage_items. apply NoDup_fst_map_to_list.
  - intros form typ key value.
    rewrite Hspec, storage_items_lookup. simpl. rewrite Hentries. simpl. split.
    + intros (tf & Heq & Hmem & Hid). injection Heq as <-. auto.
    + intros [Hmem Hid]. exists (form, typ). auto.
Qed.

Lemma iterspecs_of_from_pairs_witness :
  exists self specs,
    from_pairs_v1 example_pairs = Return self
    /\ consume (iterspecs self) = Return specs
    /\ NoDup specs.*1.*2
    /\ forall form typ key value,
         (form, typ, key, value) ∈ specs <->
         (key, value) ∈ example_pairs
         /\ identify_object_typeform value = Return (Some (form, typ)).
Proof.
  apply (iterspecs_of_from_pairs example_pairs
           example_pairs_keys example_pairs_supported).
Defined.

(** ** select, list_parameters, empty *)

Lemma select_present keys self :
  Forall (fun k => is_Some (_storage self !! k)) keys ->
  exists values,
    consume (select keys self) = Return values
    /\ yielded (select keys self) = values
    /\ Forall2 (fun k v => get_parameter k self = Return v) keys values.
Proof.
  induction keys as [|k keys IH]; intros Hall; simpl.
  - exists []. repeat split. constructor.
  - inversion Hall as [|? ? [e He] Hrest]; subst.
    destruct (IH Hrest) as (values & Hcons & Hyield & Hget).
    rewrite He. simpl. rewrite Hcons, Hyield. exists (e.2 :: values).
    repeat split. constructor; [|exact Hget].
    unfold get_parameter. rewrite He. reflexivity.
Qed.

(** X12.  [select] reads the keys in the order given.  When the store
    holds them all, consuming it returns what [get_parameter] returns for
    each; a key the store does not hold ends the run with [KeyError] for
    that key, after the values of the keys before it have been yielded
    and before any later key is looked up. *)
Theorem select_reads_in_order pre self :
  Forall (fun k => is_Some (_storage self !! k)) pre ->
  exists values,
    consume (select pre self) = Return values
    /\ Forall2 (fun k v => get_parameter k self = Return v) pre values
    /\ forall key post,
         _storage self !! key = None ->
         consume (select (pre ++ key :: post) self) = Raise (KeyError key)
         /\ yielded (select (pre ++ key :: post) self) = values.
Proof.
  intros Hall.
  destruct (select_present pre self Hall) as (values & Hcons & _ & Hget).
  exists values. split; [exact Hcons|]. split; [exact Hget|].
  intros key post Habsent. clear Hget. revert values Hcons.
  induction pre as [|k pre IH]; intros values Hcons; simpl in *.
  - injection Hcons as <-. rewrite Habsent. auto.
  - inversion Hall as [|? ? [e He] Hrest]; subst. rewrite He in *. simpl in *.
    destruct (consume (select pre self)) as [values'|] eqn:Hpre; [|discriminate].
    injection Hcons as <-.
    destruct (IH Hrest values' eq_refl) as [Hraise Hyield].
    rewrite Hraise, Hyield. auto.
Qed.

Lemma select_reads_in_order_witness :
  exists values,
    consume (select ["b"; "a"] store_ab) = Return values
    /\ Forall2 (fun k v => get_parameter k store_ab = Return v) ["b"; "a"] values
    /\ forall key post,
         _storage store_ab !! key = None ->
         consume (select (["b"; "a"] ++ key :: post) store_ab) = Raise (KeyError key)
         /\ yielded (select (["b"; "a"] ++ key :: post) store_ab) = values.
Proof.
  apply (select_reads_in_order ["b"; "a"] store_ab).
  repeat constructor; eexists; reflexivity.
Defined.

(** X13.  [list_parameters] lists each key [get_parameter] answers for,
    once, and no other; [empty] is true exactly when it lists nothing,
    that is, when [get_parameter] raises for every key. *)
Theorem list_parameters_are_the_readable_keys self :
  (forall key,
     key ∈ list_parameters self <-> exists value, get_parameter key self = Return value)
  /\ NoDup (list_parameters self)
  /\ (empty self = true <-> list_parameters self = [])
  /\ (empty self = true <-> forall key, get_parameter key self = Raise (KeyError key)).
Proof.
  assert (Hsize : empty self = true <-> _storage self = ∅).
  { unfold empty. rewrite negb_involutive, Nat.eqb_eq. apply map_size_empty_iff. }
  split; [|split; [|split]].
  - intros key. unfold list_parameters, get_parameter.
    rewrite list_elem_of_fmap. split.
    + intros ([k e] & -> & Hin). apply storage_items_lookup in Hin.
      simpl. rewrite Hin. eauto.
    + intros [value Hget].
      destruct (_storage self !! key) as [e|] eqn:Hlook; [|discriminate].
      exists (key, e). split; [reflexivity|]. apply storage_items_lookup, Hlook.
  - unfold list_parameters, storage_items. apply NoDup_fst_map_to_list.
  - rewrite Hsize. unfold list_parameters, storage_items. split.
    + intros ->. rewrite map_to_list_empty. reflexivity.
    + intros Hnil. apply fmap_nil_inv in Hnil. apply map_to_list_empty_iff, Hnil.
  - rewrite Hsize. unfold get_parameter. split.
    + intros -> key. rewrite lookup_empty. reflexivity.
    + intros Hall. apply map_empty. intros key. specialize (Hall key).
      destruct (_storage self !! key); [discriminate | reflexivity].
Qed.

(** ** What the classifier answers *)

Lemma builtins_get_name table t stype :
  builtins_get table t = Some stype -> stype ∈ table.*2.
Proof.
  induction table as [|[T name] rest IH]; simpl; [discriminate|].
  destruct (decide (Builtin T = t)).
  - intros [= <-]. left.
  - intros H. right. apply IH, H.
Qed.

Lemma subclass_scan_name table obj tf :
  subclass_scan table obj = Some tf -> tf.1 = "value" /\ tf.2 ∈ table.*2.
Proof.
  induction table as [|[T name] rest IH]; simpl; [discriminate|].
  destruct (isinstance obj T).
  - intros [= <-]. split; [reflexivity | left].
  - intros H. destruct (IH H) as [Hform Hname]. split; [exact Hform|].
    right. exact Hname.
Qed.

Lemma identify_fuel_range n :
  forall obj tf,
    identify_fuel n obj = Return (Some tf) ->
    (tf.1 = "value" \/ (tf.1 = "v-set" /\ isinstance obj Tset = true)
     \/ (tf.1 = "v-sequence" /\ isinstance obj Tset = false))
    /\ tf.2 ∈ _python_builtins.*2.
Proof.
  induction n as [|n IH]; intros obj tf; simpl; [discriminate|].
  unfold identify_body.
  destruct (builtins_get _python_builtins (py_type obj)) as [stype|] eqn:Hk.
  { intros [= <-]. split; [left; reflexivity|].
    exact (builtins_get_name _python_builtins _ _ Hk). }
  destruct (py_iter obj) as [i|e]; cycle 1.
  { destruct e; try discriminate; intros [= H];
      destruct (subclass_scan_name _python_builtins _ _ H) as [Hform Hname];
      (split; [left; exact Hform | exact Hname]). }
  destruct (py_next i) as [first|e]; cycle 1.
  { destruct e; try discriminate; intros [= H];
      destruct (subclass_scan_name _python_builtins _ _ H) as [Hform Hname];
      (split; [left; exact Hform | exact Hname]). }
  destruct (identify_fuel n first) as [[tf'|]|e] eqn:Hfirst; try discriminate.
  destruct (IH first tf' Hfirst) as [_ Hname].
  destruct (_ || _); [|discriminate].
  destruct (isinstance obj Tset) eqn:Hset; intros [= <-];
    (split; [right; auto | exact Hname]).
Qed.

(** X14.  A typeform the classifier returns has the form ['value'],
    ['v-set'] or ['v-sequence'], the form ['v-set'] exactly for instances
    of [set] among the collections, and its type is one of the seven
    names of [_python_builtins]: the classifier never answers with a
    representation or a reference. *)
Theorem identify_answers_in_vocabulary obj tf :
  identify_object_typeform obj = Return (Some tf) ->
  (tf.1 = "value" \/ (tf.1 = "v-set" /\ isinstance obj Tset = true)
   \/ (tf.1 = "v-sequence" /\ isinstance obj Tset = false))
  /\ tf.2 ∈ ["boolean"; "integer"; "rational"; "string"; "octets"; "void"; "parameters"].
Proof. apply identify_fuel_range. Qed.

Lemma identify_answers_in_vocabulary_witness :
  ("v-sequence" = "value"
   \/ ("v-sequence" = "v-set"
       /\ isinstance (PyFrozenset None [PyBytes None []]) Tset = true)
   \/ ("v-sequence" = "v-sequence"
       /\ isinstance (PyFrozenset None [PyBytes None []]) Tset = false))
  /\ "octets" ∈ ["boolean"; "integer"; "rational"; "string"; "octets"; "void";
                 "parameters"].
Proof.
  apply (identify_answers_in_vocabulary (PyFrozenset None [PyBytes None []])
           ("v-sequence", "octets")).
  reflexivity.
Defined.

(** X15.  Only the first element of a collection is looked at: a list,
    tuple, set or frozenset is classified as the same container holding
    its first element alone is, whatever the other elements are. *)
Theorem identify_looks_at_first_element cls x rest :
  identify_object_typeform (PyList cls (x :: rest))
    = identify_object_typeform (PyList cls [x])
  /\ identify_object_typeform (PyTuple cls (x :: rest))
    = identify_object_typeform (PyTuple cls [x])
  /\ identify_object_typeform (PySet cls (x :: rest))
    = identify_object_typeform (PySet cls [x])
  /\ identify_object_typeform (PyFrozenset cls (x :: rest))
    = identify_object_typeform (PyFrozenset cls [x]).
Proof.
  repeat split;
    match goal with
    | |- identify_object_typeform ?a = identify_object_typeform ?b =>
        rewrite (identify_first a x rest), (identify_first b x []);
        try reflexivity; destruct cls; reflexivity
    end.
Qed.

(** ** Failure, Message, Report *)

Lemma bind_keywords_returns positional keywords :
  NoDup keywords.*1 ->
  Forall (fun kv => kv.1 ∉ positional) keywords ->
  bind_keywords positional keywords = Return keywords.
Proof.
  intros Hnd Hfree. unfold bind_keywords.
  rewrite bool_decide_eq_true_2 by exact Hnd.
  assert (Hnone : filter (fun name => name ∈ positional) keywords.*1 = []).
  { clear Hnd. induction keywords as [|[k v] keywords IH]; [reflexivity|].
    inversion Hfree as [|? ? Hk Hrest]; subst. simpl in Hk.
    rewrite fmap_cons. simpl. rewrite filter_cons_False by exact Hk.
    apply IH, Hrest. }
  rewrite Hnone. reflexivity.
Qed.

Lemma bind_keywords_raises positional keywords key value :
  (key, value) ∈ keywords ->
  key ∈ positional ->
  exists msg, bind_keywords positional keywords = Raise (TypeError msg).
Proof.
  intros Hin Hpos. unfold bind_keywords.
  destruct (bool_decide (NoDup keywords.*1)); [|eexists; reflexivity].
  destruct (filter (fun name => name ∈ positional) keywords.*1) as [|name rest] eqn:Hf.
  - exfalso. apply (not_elem_of_nil key). rewrite <- Hf.
    apply list_elem_of_filter. split; [exact Hpos|].
    apply list_elem_of_fmap. exists (key, value). auto.
  - eexists. reflexivity.
Qed.

(** X16.  The three record constructors, called with the same context,
    event and keyword arguments.  For keyword arguments with distinct
    names and supported values, a constructor returns when no name is one
    of its own positional parameters, and then its record holds the event
    given, the store [from_pairs_v1] builds from the keywords (which
    reads back every keyword value) and the context given, or a trace
    with no route point when the context is [None]: the three build the
    same triple.  A keyword named like a positional parameter of a
    constructor makes that constructor raise [TypeError]. *)
Theorem records_from_keywords context event keywords :
  NoDup keywords.*1 ->
  Forall (fun kv => supported kv.2) keywords ->
  exists store route,
    Parameters.from_pairs_v1 keywords = Return store
    /\ (forall key value,
          (key, value) ∈ keywords -> get_parameter key store = Return value)
    /\ (context = None -> Trace.t_route route = [])
    /\ (forall given, context = Some given -> route = given)
    /\ (Forall (fun kv => kv.1 ∉ Failure.positional) keywords ->
        Failure.from_arguments_v1 context event keywords
        = Return (Failure.Class event store route))
    /\ (Forall (fun kv => kv.1 ∉ Message.positional) keywords ->
        Message.from_arguments_v1 context event keywords
        = Return (Message.Class event store route))
    /\ (Forall (fun kv => kv.1 ∉ Report.positional) keywords ->
        Report.from_arguments_v1 context event keywords
        = Return (Report.Class event store route))
    /\ (forall key value,
          (key, value) ∈ keywords -> key ∈ Failure.positional ->
          exists msg,
            Failure.from_arguments_v1 context event keywords = Raise (TypeError msg))
    /\ (forall key value,
          (key, value) ∈ keywords -> key ∈ Message.positional ->
          exists msg,
            Message.from_arguments_v1 context event keywords = Raise (TypeError msg))
    /\ (forall key value,
          (key, value) ∈ keywords -> key ∈ Report.positional ->
          exists msg,
            Report.from_arguments_v1 context event keywords = Raise (TypeError msg)).
Proof.
  intros Hnd Hall.
  destruct (from_pairs_supported keywords Hnd Hall) as (storage & Hret & Hentries).
  exists (__init__ storage).
  exists (match context with None => Trace.from_nothing_v1 | Some given => given end).
  split; [unfold from_pairs_v1; rewrite Hret; reflexivity|].
  split.
  { intros key value Hin.
    destruct (supported_classified value) as [tf Hid].
    { rewrite Forall_forall in Hall. apply (Hall (key, value) Hin). }
    unfold get_parameter. simpl.
    rewrite (proj2 (Hentries key (Some tf, value))); [reflexivity|].
    exists tf. auto. }
  split; [intros ->; reflexivity|].
  split; [intros given ->; reflexivity|].
  split; [|split; [|split; [|split; [|split]]]].
  - intros Hfree. unfold Failure.from_arguments_v1.
    rewrite (bind_keywords_returns _ _ Hnd Hfree).
    unfold from_pairs_v1. rewrite Hret. reflexivity.
  - intros Hfree. unfold Message.from_arguments_v1.
    rewrite (bind_keywords_returns _ _ Hnd Hfree).
    unfold from_pairs_v1. rewrite Hret. reflexivity.
  - intros Hfree. unfold Report.from_arguments_v1.
    rewrite (bind_keywords_returns _ _ Hnd Hfree).
    unfold from_pairs_v1. rewrite Hret. reflexivity.
  - intros key value Hin Hpos. unfold Failure.from_arguments_v1.
    destruct (bind_keywords_raises _ _ key value Hin Hpos) as [msg ->]. eauto.
  - intros key value Hin Hpos. unfold Message.from_arguments_v1.
    destruct (bind_keywords_raises _ _ key value Hin Hpos) as [msg ->]. eauto.
  - intros key value Hin Hpos. unfold Report.from_arguments_v1.
    destruct (bind_keywords_raises _ _ key value Hin Hpos) as [msg ->]. eauto.
Qed.

Lemma records_from_keywords_witness :
  (exists msg,
     Failure.from_arguments_v1 None (EStruct.from_fields_v1 "posix.errno")
       [("error", PyInt None 3)] = Raise (TypeError msg))
  /\ exists store,
       Message.from_arguments_v1 None (EStruct.from_fields_v1 "posix.errno")
         [("error", PyInt None 3)]
       = Return (Message.Class (EStruct.from_fields_v1 "posix.errno") store
                   Trace.from_nothing_v1)
       /\ Report.from_arguments_v1 None (EStruct.from_fields_v1 "posix.errno")
            [("error", PyInt None 3)]
          = Return (Report.Class (EStruct.from_fields_v1 "posix.errno") store
                      Trace.from_nothing_v1)
       /\ get_parameter "error" store = Return (PyInt None 3).
Proof.
  destruct (records_from_keywords None (EStruct.from_fields_v1 "posix.errno")
              [("error", PyInt None 3)])
    as (store & route & _ & Hget & Hroute & _ & _ & Hm & Hr & Hf & _ & _).
  - repeat constructor. apply not_elem_of_nil.
  - constructor; [left; eexists; reflexivity | constructor].
  - assert (Hfree : forall names : list string,
               "error" ∉ names ->
               Forall (fun kv : string * pyobj => kv.1 ∉ names)
                 [("error", PyInt None 3)])
      by (intros names Hn; repeat constructor; exact Hn).
    assert (Hempty : route = Trace.from_nothing_v1).
    { destruct route as [events]. specialize (Hroute eq_refl). simpl in Hroute.
      rewrite Hroute. reflexivity. }
    split.
    + apply (Hf "error" (PyInt None 3)); [left | right; right; left].
    + exists store. rewrite <- Hempty.
      split; [|split].
      * apply Hm, Hfree. unfold Message.positional.
        rewrite !not_elem_of_cons. repeat split; try discriminate. apply not_elem_of_nil.
      * apply Hr, Hfree. unfold Report.positional.
        rewrite !not_elem_of_cons. repeat split; try discriminate. apply not_elem_of_nil.
      * apply Hget. left.
Defined.

(** ** EStruct *)

(** X17.  [from_tuple_v1] keeps the first five objects: built from the
    fields of an instance followed by anything, it is that instance, and
    each property reads its field.  Built from fewer than five objects it
    is the tuple of those objects: [abstract] then reads the last of
    them, and there is no fifth. *)
Theorem from_tuple_keeps_five self extra :
  EStruct.from_tuple_v1 (EStruct.fields self ++ extra) = EStruct.fields self
  /\ EStruct.protocol_of (EStruct.from_tuple_v1 (EStruct.fields self ++ extra))
     = Some (ArgStr (EStruct.protocol self))
  /\ EStruct.identifier_of (EStruct.from_tuple_v1 (EStruct.fields self ++ extra))
     = Some (ArgStr (EStruct.identifier self))
  /\ EStruct.code_of (EStruct.from_tuple_v1 (EStruct.fields self ++ extra))
     = Some (ArgInt (EStruct.code self))
  /\ EStruct.symbol_of (EStruct.from_tuple_v1 (EStruct.fields self ++ extra))
     = Some (ArgStr (EStruct.symbol self))
  /\ EStruct.abstract_of (EStruct.from_tuple_v1 (EStruct.fields self ++ extra))
     = Some (ArgStr (EStruct.abstract self))
  /\ (forall short : list fmtarg,
        length short < 5 ->
        EStruct.from_tuple_v1 short = short
        /\ EStruct.abstract_of (EStruct.from_tuple_v1 short) = last short
        /\ EStruct.item (EStruct.from_tuple_v1 short) 4 = None).
Proof.
  assert (Hfive : EStruct.from_tuple_v1 (EStruct.fields self ++ extra)
                  = EStruct.fields self) by reflexivity.
  rewrite Hfive. repeat split; try reflexivity.
  - unfold EStruct.from_tuple_v1. apply take_ge. lia.
  - unfold EStruct.from_tuple_v1. rewrite take_ge by lia.
    unfold EStruct.abstract_of, EStruct.item. rewrite last_lookup.
    destruct short as [|x short]; [reflexivity|]. simpl length.
    replace (0 <=? -1)%Z with false by reflexivity.
    replace (0 <=? Z.of_nat (S (length short)) + -1)%Z with true
      by (symmetry; apply Z.leb_le; lia).
    f_equal. lia.
  - unfold EStruct.from_tuple_v1. rewrite take_ge by lia.
    unfold EStruct.item. simpl. apply lookup_ge_None. lia.
Qed.

Lemma py_str_int_nonempty n : py_str_int n <> "".
Proof.
  unfold py_str_int. destruct (Z.to_int n) as [d|d]; simpl; [|discriminate].
  destruct d; discriminate.
Qed.

(** X18.  An instance whose string identifier is empty always shows its
    integer code; one built by [from_fields_v1] from a protocol alone is
    rendered with [:0] and the default symbol and abstract. *)
Theorem repr_without_identifier self :
  EStruct.identifier self = "" ->
  EStruct.__repr__ self =
    Return ("<[" ++ EStruct.protocol self ++ "#:" ++ py_str_int (EStruct.code self)
            ++ "] " ++ EStruct.symbol self
            ++ ": " ++ py_repr_str (EStruct.abstract self) ++ ">")
  /\ forall protocol,
       EStruct.__repr__ (EStruct.from_fields_v1 protocol) =
         Return ("<[" ++ protocol
                 ++ "#:0] Unspecified: 'event snapshot created without abstract'>").
Proof.
  intros Hid. split.
  - unfold EStruct.__repr__. rewrite Hid.
    rewrite bool_decide_eq_true_2 by apply py_str_int_nonempty. reflexivity.
  - intros protocol. reflexivity.
Qed.

Lemma repr_without_identifier_witness :
  EStruct.__repr__ (EStruct.from_arguments_v1 "app" "" 17 "Overflow" "queue is full")
  = Return "<[app#:17] Overflow: 'queue is full'>".
Proof.
  apply (repr_without_identifier
           (EStruct.from_arguments_v1 "app" "" 17 "Overflow" "queue is full")).
  reflexivity.
Defined.
